(** * youtube-analyzer: transcript concatenation, analysis call and
      result normalisation of [src/server/youtube-analyzer.py]

    The script fetches a video transcript, joins it into one text, asks a
    completion service for a moderation assessment and prints a JSON
    record built from that free text.  This file embeds the script's
    functions and proves what the project's specification says about them.

    Conventions of the embedding.
    - A Python [str] is a [string]; a character is a code point below 256.
      On these, [str.lower] changes the letters A-Z and the Latin-1
      capitals, [\d] matches 0-9 only and [str.strip] removes the
      characters for which [str.isspace] holds.
    - A Python [int] is a [Z]; [int()] of a run of digits is total, as in
      the language reference (an interpreter's configurable cap on the
      length of a converted numeral is not part of the model).
    - A [dict] with string keys is a [gmap string _].
    - An exception is carried by the text [str(e)] that the handlers print.
    - [print] calls that write progress lines are left out; the output of
      [main] is the sequence of documents written by
      [print(json.dumps(...))]. *)

From Stdlib Require Import ZArith Ascii String List Lia Bool.
From Stdlib Require Import DecimalString.
From stdpp Require Import gmap strings.

Local Open Scope Z_scope.

(** ** Characters and text *)

Module Text.

(** Code point of a character. *)
Definition code (c : ascii) : nat := nat_of_ascii c.

(** [\d] on a code point below 256. *)
Definition is_digit (c : ascii) : bool :=
  ((48 <=? code c) && (code c <=? 57))%nat.

(** [str.isspace] on a code point below 256. *)
Definition is_space (c : ascii) : bool :=
  (((9 <=? code c) && (code c <=? 13))
   || ((28 <=? code c) && (code c <=? 32))
   || (code c =? 133) || (code c =? 160))%nat.

(** Characters changed by [str.lower]: A-Z, and the capitals of Latin-1
    (the multiplication sign 215 lies among them and is no letter). *)
Definition is_upper (c : ascii) : bool :=
  (((65 <=? code c) && (code c <=? 90))
   || ((192 <=? code c) && (code c <=? 222) && negb (code c =? 215)))%nat.

Definition lower_char (c : ascii) : ascii :=
  if is_upper c then ascii_of_nat (code c + 32) else c.

(** [s.lower()] *)
Fixpoint lower (s : string) : string :=
  match s with
  | EmptyString => EmptyString
  | String c s' => String (lower_char c) (lower s')
  end.

(** [s.startswith(p)] *)
Fixpoint startswith (p s : string) : bool :=
  match p, s with
  | EmptyString, _ => true
  | String _ _, EmptyString => false
  | String a p', String b s' => if Ascii.eqb a b then startswith p' s' else false
  end.

(** [needle in s] *)
Fixpoint contains (needle s : string) : bool :=
  startswith needle s
  || match s with
     | EmptyString => false
     | String _ s' => contains needle s'
     end.

(** [s[:n]] for [n >= 0] *)
Fixpoint slice_to (n : nat) (s : string) : string :=
  match n, s with
  | O, _ => EmptyString
  | S _, EmptyString => EmptyString
  | S n', String c s' => String c (slice_to n' s')
  end.

(** [s.lstrip()], [s.rstrip()] and [s.strip()] *)
Fixpoint lstrip (s : string) : string :=
  match s with
  | EmptyString => EmptyString
  | String c s' => if is_space c then lstrip s' else s
  end.

Fixpoint rstrip (s : string) : string :=
  match s with
  | EmptyString => EmptyString
  | String c s' =>
      match rstrip s' with
      | EmptyString => if is_space c then EmptyString else String c EmptyString
      | r => String c r
      end
  end.

Definition strip (s : string) : string := lstrip (rstrip s).

(** [sep.join(parts)] *)
Fixpoint join (sep : string) (parts : list string) : string :=
  match parts with
  | [] => EmptyString
  | [p] => p
  | p :: rest => p +:+ sep +:+ join sep rest
  end.

(** The longest prefix of [s] made of digits: what [\d+] consumes when it
    starts matching at the head of [s]. *)
Fixpoint digits_prefix (s : string) : string :=
  match s with
  | EmptyString => EmptyString
  | String c s' => if is_digit c then String c (digits_prefix s') else EmptyString
  end.

(** [re.search(r'(\d+)', s)], giving [group(1)] of the match: the search
    tries the positions from the left and the quantifier is greedy. *)
Fixpoint search_digits (s : string) : option string :=
  match s with
  | EmptyString => None
  | String c s' =>
      if is_digit c then Some (digits_prefix s) else search_digits s'
  end.

Definition digit_value (c : ascii) : Z := Z.of_nat (code c) - 48.

(** [int(s)] on a run of digits, read from the left. *)
Fixpoint int_from (acc : Z) (s : string) : Z :=
  match s with
  | EmptyString => acc
  | String c s' => int_from (10 * acc + digit_value c) s'
  end.

Definition int_of_digits (s : string) : Z := int_from 0 s.

(** [str(z)] of an [int]. *)
Definition str_of_int (z : Z) : string := NilZero.string_of_int (Z.to_int z).

(** Every character of [s] satisfies [p]. *)
Fixpoint all_chars (p : ascii -> bool) (s : string) : bool :=
  match s with
  | EmptyString => true
  | String c s' => p c && all_chars p s'
  end.

(** The value of a decimal numeral, by positional weight. *)
Fixpoint numeral_value (s : string) : Z :=
  match s with
  | EmptyString => 0
  | String c s' => digit_value c * 10 ^ Z.of_nat (String.length s') + numeral_value s'
  end.

End Text.

Import Text.

(** ** Result normaliser (lines 160-179 of the script) *)

(** Lines 162-167: the score is 5 unless the lowered text mentions
    "toxicity score" and some digit run exists. *)
Definition toxicity_score (analysis : string) : Z :=
  if contains "toxicity score" (lower analysis) then
    match search_digits analysis with
    | Some run => int_of_digits run
    | None => 5
    end
  else 5.

(** Lines 170-179: the four keyword tests, each appending its tag. *)
Definition bias_tags (analysis : string) : list string :=
  let bias_tags := [] in
  if contains "bias" (lower analysis) then
    let bias_tags :=
      if contains "political" (lower analysis) then bias_tags ++ ["Political"] else bias_tags in
    let bias_tags :=
      if contains "cultural" (lower analysis) then bias_tags ++ ["Cultural"] else bias_tags in
    let bias_tags :=
      if contains "gender" (lower analysis) then bias_tags ++ ["Gender"] else bias_tags in
    let bias_tags :=
      if contains "racial" (lower analysis) then bias_tags ++ ["Racial"] else bias_tags in
    bias_tags
  else bias_tags.

(** ** Values, exceptions and results *)

(** What [str(e)] gives for an exception [e]. *)
Inductive exn : Type := Exn (message : string).

Definition str_exn (e : exn) : string :=
  match e with Exn message => message end.

(** Outcome of an expression that may raise. *)
Inductive result (A : Type) : Type :=
  | Ok (a : A)
  | Raise (e : exn).
Arguments Ok {A} a.
Arguments Raise {A} e.

#[global] Instance result_ret : MRet result := fun _ a => Ok a.
#[global] Instance result_bind : MBind result := fun _ _ f r =>
  match r with
  | Ok a => f a
  | Raise e => Raise e
  end.

(** Field values of a transcript entry: a text, a number or [None]. A
    [float] is kept as the text [str()] gives for it, which is all the
    script does with one. *)
Inductive value : Type :=
  | VNone
  | VInt (z : Z)
  | VFloat (shown : string)
  | VStr (s : string).

(** [type(v).__name__] *)
Definition type_name (v : value) : string :=
  match v with
  | VNone => "NoneType"
  | VInt _ => "int"
  | VFloat _ => "float"
  | VStr _ => "str"
  end.

(** [str(v)] *)
Definition py_str (v : value) : string :=
  match v with
  | VNone => "None"
  | VInt z => str_of_int z
  | VFloat shown => shown
  | VStr s => s
  end.

(** [v + t] for a [str] [t]: concatenation when [v] is a [str], a
    [TypeError] otherwise. *)
Definition unsupported_add (v : value) : exn :=
  Exn ("unsupported operand type(s) for +: '" +:+ type_name v +:+ "' and 'str'").

Definition add_str (v : value) (t : string) : result string :=
  match v with
  | VStr s => Ok (s +:+ t)
  | _ => Raise (unsupported_add v)
  end.

(** A transcript entry is a [dict], or any other value, of which the
    script reads [str(entry)] and the attributes [getattr] finds. *)
Inductive entry : Type :=
  | EDict (d : gmap string value)
  | EObj (shown : string) (attrs : gmap string value).

(** ** Transcript concatenator (lines 28-37) *)

(** The [for] loop of lines 31-36, with [full_text] as accumulator. *)
Fixpoint concat_entries (full_text : string) (transcript : list entry) : result string :=
  match transcript with
  | [] => Ok full_text
  | EDict d :: rest =>
      piece ← add_str (default (VStr "") (d !! "text")) " ";
      concat_entries (full_text +:+ piece) rest
  | EObj shown attrs :: rest =>
      let text := match attrs !! "text" with
                  | Some v => py_str v
                  | None => shown
                  end in
      concat_entries (full_text +:+ (text +:+ " ")) rest
  end.

Definition get_full_transcript_text (transcript : list entry) : result string :=
  full_text ← concat_entries "" transcript;
  mret (strip full_text).

(** ** Content analyser (lines 39-73) *)

Definition nl : string := String "010" EmptyString.

(** The prompt template of lines 42-57, before and after the embedded
    transcript. *)
Definition prompt_head : string :=
  "Analyze the following YouTube video transcript for:" +:+ nl +:+
  nl +:+
  "1. **Toxicity**: Check for hate speech, harassment, profanity, threats, or harmful content" +:+ nl +:+
  "2. **Bias**: Identify any political, cultural, gender, racial, or ideological biases" +:+ nl +:+
  "3. **Misinformation**: Look for false claims, misleading statements, or unverified facts" +:+ nl +:+
  nl +:+
  "Transcript:" +:+ nl.

Definition prompt_tail : string :=
  "  " +:+ nl +:+
  nl +:+
  "Please provide:" +:+ nl +:+
  "- A toxicity score (0-10, where 10 is highly toxic)" +:+ nl +:+
  "- A bias assessment (types of bias detected and severity)" +:+ nl +:+
  "- A misinformation assessment (potential false claims identified)" +:+ nl +:+
  "- An overall summary" +:+ nl +:+
  nl +:+
  "Format your response as a structured analysis.".

Definition prompt (transcript_text : string) : string :=
  prompt_head +:+ slice_to 4000 transcript_text +:+ prompt_tail.

Definition system_content : string :=
  "You are an expert content moderator analyzing video transcripts for toxicity, bias, and misinformation. Be objective and thorough.".

(** The keyword arguments of [openai.chat.completions.create]; a message
    is a pair of its role and its content, the temperature is kept as the
    source writes it. *)
Record request : Type := {
  model : string;
  messages : list (string * string);
  temperature : string;
  max_tokens : Z
}.

Definition chat_request (transcript_text : string) : request :=
  {| model := "gpt-4";
     messages := [("system", system_content); ("user", prompt transcript_text)];
     temperature := "0.3";
     max_tokens := 1000 |}.

(** The completion service: a response is seen through the message
    contents of its choices, each a [str] or [None]. *)
Definition completion_service : Type := request -> result (list (option string)).

(** [l[0]] *)
Definition index0 {A} (l : list A) : result A :=
  match l with
  | x :: _ => Ok x
  | [] => Raise (Exn "list index out of range")
  end.

Definition analyze_content (create : completion_service)
    (transcript_text video_id : string) : option string :=
  match create (chat_request transcript_text) ≫= index0 with
  | Ok content => content
  | Raise e => Some ("Error analyzing content: " +:+ str_exn e)
  end.

(** ** Output documents *)

(** What [json.dumps] is given; a [float] is kept by its literal. *)
#[warnings="-register-all"]
Inductive json : Type :=
  | JNull
  | JInt (z : Z)
  | JFloat (literal : string)
  | JStr (s : string)
  | JList (items : list json)
  | JObject (members : list (string * json)).

Definition json_of_text (t : option string) : json :=
  match t with
  | Some s => JStr s
  | None => JNull
  end.

Definition emotions : json :=
  JObject [("anger", JFloat "0.3"); ("joy", JFloat "0.4"); ("trust", JFloat "0.5");
           ("fear", JFloat "0.2"); ("sadness", JFloat "0.3"); ("surprise", JFloat "0.4");
           ("disgust", JFloat "0.2")].

(** The dict literal of lines 182-200 and 208-226. *)
Definition analysis_result (video_id : string) (toxicity_score : Z)
    (bias_tags : list string) (analysis : option string) : json :=
  JObject [("videoId", JStr video_id);
           ("title", JStr ("Video " +:+ video_id));
           ("channelName", JStr "Unknown Channel");
           ("publishDate", JStr "2024-01-01T00:00:00Z");
           ("thumbnail", JStr ("https://img.youtube.com/vi/" +:+ video_id +:+ "/maxresdefault.jpg"));
           ("toxicityScore", JInt toxicity_score);
           ("biasTags", JList (JStr <$> bias_tags));
           ("emotions", emotions);
           ("analysis", json_of_text analysis)].

(** The dict literal of lines 232-235 and 243-246. *)
Definition error_result (error video_id : string) : json :=
  JObject [("error", JStr error); ("videoId", JStr video_id)].

(** [doc[key]] on an object. *)
Definition member (key : string) (doc : json) : option json :=
  match doc with
  | JObject members => snd <$> List.find (fun kv => String.eqb (fst kv) key) members
  | _ => None
  end.

(** The keys of an object, in order. *)
Definition keys (doc : json) : list string :=
  match doc with
  | JObject members => fst <$> members
  | _ => []
  end.

Definition full_shaped (doc : json) : Prop :=
  keys doc = ["videoId"; "title"; "channelName"; "publishDate"; "thumbnail";
              "toxicityScore"; "biasTags"; "emotions"; "analysis"].

Definition error_shaped (doc : json) : Prop :=
  keys doc = ["error"; "videoId"].

(** ** Statements that print and may raise *)

(** A block of statements: the documents it printed, and how it ended. *)
Record M (A : Type) : Type := Run { printed : list json; outcome : result A }.
Arguments Run {A} printed outcome.
Arguments printed {A} m.
Arguments outcome {A} m.

#[global] Instance M_ret : MRet M := fun _ a => Run [] (Ok a).
#[global] Instance M_bind : MBind M := fun _ _ f m =>
  match outcome m with
  | Ok a => Run (printed m ++ printed (f a)) (outcome (f a))
  | Raise e => Run (printed m) (Raise e)
  end.

(** An expression inside a block. *)
Definition eval {A} (r : result A) : M A := Run [] r.

(** [print(json.dumps(doc, indent=2))] *)
Definition print_json (doc : json) : M unit := Run [doc] (Ok tt).

(** [try: body  except Exception as e: handler] *)
Definition try_except {A} (body : M A) (handler : exn -> M A) : M A :=
  match outcome body with
  | Ok a => body
  | Raise e => Run (printed body ++ printed (handler e)) (outcome (handler e))
  end.

(** ** Entry point (lines 75-247) *)

(** A track: a [dict] read at its key 'transcript', which holds a list of
    entries. *)
Abbreviation track := (gmap string (list entry)).

(** A [dict] as the fetch step reads it: the value under 'tracks', a list
    of tracks, when the key is there, and the other keys with their field
    values. *)
Record pydict : Type := {
  fields : gmap string value;
  tracks : option (list track)
}.

(** An element of the fetched result: a [dict], or an instance with its
    [__dict__] and the attributes found on its class only. *)
Inductive item : Type :=
  | IDict (d : pydict)
  | IObj (shown : string) (inst : pydict) (cls : pydict).

(** Lines 102-106: [result_dict] is the [__dict__] of the element when it
    has one, and the element itself otherwise; a [dict] has none. *)
Definition result_dict_of (first_result : item) : pydict :=
  match first_result with
  | IObj _ inst _ => inst
  | IDict d => d
  end.

(** [getattr(i, 'tracks')], when [hasattr(i, 'tracks')]: the instance
    first, then its class; a [dict] has no such attribute. *)
Definition attr_tracks (i : item) : option (list track) :=
  match i with
  | IDict _ => None
  | IObj _ inst cls =>
      match tracks inst with
      | Some ts => Some ts
      | None => tracks cls
      end
  end.

(** An element read as a transcript entry, when the fetched list is the
    transcript itself. *)
Definition entry_of_item (i : item) : entry :=
  match i with
  | IDict d => EDict (fields d)
  | IObj shown inst cls => EObj shown (fields inst ∪ fields cls)
  end.

(** [t['transcript']] *)
Definition getitem_transcript (t : track) : result (list entry) :=
  match t !! "transcript" with
  | Some transcript => Ok transcript
  | None => Raise (Exn "'transcript'")
  end.

(** What a run depends on: the environment variable, the transcript
    service ([api.list], and [list(api.fetch(video_id))]) and the
    completion service. *)
Record world : Type := {
  env_VIDEO_ID : option string;
  api_list : string -> result unit;
  api_fetch : string -> result (list item);
  create : completion_service
}.

(** Lines 160-203: the body of the inner [try]. *)
Definition structured_result (video_id : string) (analysis : option string) : result json :=
  match analysis with
  | Some text =>
      Ok (analysis_result video_id (toxicity_score text) (bias_tags text) analysis)
  | None => Raise (Exn "'NoneType' object has no attribute 'lower'")
  end.

(** Lines 160-227: the inner [try] with its handler. *)
Definition report (video_id : string) (analysis : option string) : M unit :=
  try_except
    (doc ← eval (structured_result video_id analysis); print_json doc)
    (fun _ => print_json (analysis_result video_id 5 ["Unknown"] analysis)).

(** Lines 128-227: from the transcript to the printed record. *)
Definition analyse (w : world) (video_id : string) (transcript : list entry) : M unit :=
  full_text ← eval (get_full_transcript_text transcript);
  report video_id (analyze_content (create w) full_text video_id).

(** Line 77. *)
Definition video_id_of (w : world) : string := default "5NojPQTNx9s" (env_VIDEO_ID w).

(** Lines 86-236: the body of the outer [try]. *)
Definition fetch_and_analyse (w : world) (video_id : string) : M unit :=
  _ ← eval (api_list w video_id);
  result_list ← eval (api_fetch w video_id);
  match result_list with
  | first_result :: _ =>
      let result_dict := result_dict_of first_result in
      match tracks result_dict with
      | Some tracks =>
          (* lines 115-121: 'tracks' in result_dict *)
          match tracks with
          | t :: _ => analyse w video_id (default [] (t !! "transcript"))
          | [] => mret tt
          end
      | None =>
          match attr_tracks first_result with
          | Some tracks =>
              (* lines 122-123: hasattr(first_result, 'tracks') *)
              t ← eval (index0 tracks);
              transcript ← eval (getitem_transcript t);
              analyse w video_id transcript
          | None =>
              (* lines 124-126: the result is the transcript *)
              analyse w video_id (entry_of_item <$> result_list)
          end
      end
  | [] =>
      (* lines 229-236 *)
      print_json (error_result "No transcript data returned" video_id)
  end.

(** [main()], as the documents it prints. *)
Definition main (w : world) : list json :=
  let video_id := video_id_of w in
  printed
    (try_except (fetch_and_analyse w video_id)
       (fun e => print_json (error_result ("Analysis failed: " +:+ str_exn e) video_id))).

(** ** Notions used by the statements *)

Definition non_digit (c : ascii) : bool := negb (is_digit c).

Definition starts_with_digit (s : string) : bool :=
  match s with
  | EmptyString => false
  | String c _ => is_digit c
  end.

(** [run] is the leftmost maximal run of decimal digits of [s]: no digit
    comes before it, and it cannot be extended to the right. *)
Definition leftmost_digit_run (s run : string) : Prop :=
  exists pre post : string,
    s = pre +:+ run +:+ post
    /\ all_chars non_digit pre = true
    /\ run <> EmptyString
    /\ all_chars is_digit run = true
    /\ starts_with_digit post = false.

(** The tags of the normaliser, in the order of its tests. *)
Definition vocabulary : list string := ["Political"; "Cultural"; "Gender"; "Racial"].

(** The text the concatenator takes from one entry (lines 32-36): the
    value under 'text' of a mapping, which has to be a [str], and the
    empty text without that key; for any other entry [str()] of its
    attribute [text], and [str(entry)] without that attribute. *)
Definition entry_text (e : entry) : result string :=
  match e with
  | EDict d =>
      match default (VStr "") (d !! "text") with
      | VStr s => Ok s
      | v => Raise (unsupported_add v)
      end
  | EObj shown attrs =>
      Ok (match attrs !! "text" with
          | Some v => py_str v
          | None => shown
          end)
  end.

(** The text of an entry as the specification words it: the key 'text'
    of a mapping, else the attribute [text], else the empty text. *)
Definition stated_text (e : entry) : string :=
  match e with
  | EDict d => from_option py_str "" (d !! "text")
  | EObj _ attrs => from_option py_str "" (attrs !! "text")
  end.

(** What the loop of lines 31-36 builds from the texts. *)
Fixpoint spaced (texts : list string) : string :=
  match texts with
  | [] => ""
  | t :: rest => t +:+ " " +:+ spaced rest
  end.

(** A transcript entry of the data model, and its two presentations. *)
Record TranscriptEntry : Type := {
  startOffsetSeconds : value;
  text : string
}.

Definition as_mapping (e : TranscriptEntry) : entry :=
  EDict {[ "text" := VStr (text e); "start" := startOffsetSeconds e ]}.

Definition as_object (shown : TranscriptEntry -> string) (e : TranscriptEntry) : entry :=
  EObj (shown e) {[ "text" := VStr (text e); "start" := startOffsetSeconds e ]}.

(** The transcript that lines 98-126 hand to the rest of [main], when
    they hand one over: not for an empty result, nor for an empty list of
    tracks, nor when the attribute [tracks] is read and the look-up
    raises. *)
Definition selected_transcript (result_list : list item) : option (list entry) :=
  match result_list with
  | [] => None
  | first_result :: _ =>
      match tracks (result_dict_of first_result) with
      | Some (t :: _) => Some (default [] (t !! "transcript"))
      | Some [] => None
      | None =>
          match attr_tracks first_result with
          | Some (t :: _) => t !! "transcript"
          | Some [] => None
          | None => Some (entry_of_item <$> result_list)
          end
      end
  end.

(** The run that finds 'tracks' in [result_dict], holding an empty list. *)
Definition no_tracks_found (w : world) : Prop :=
  api_list w (video_id_of w) = Ok tt
  /\ exists first_result rest,
       api_fetch w (video_id_of w) = Ok (first_result :: rest)
       /\ tracks (result_dict_of first_result) = Some [].

(** Sample runs. *)
Definition snippet (t : string) : item :=
  IObj "snippet"
    {| fields := {[ "text" := VStr t; "start" := VFloat "0.0" ]}; tracks := None |}
    {| fields := ∅; tracks := None |}.

Definition run_with (fetched : list item) (service : completion_service) : world :=
  {| env_VIDEO_ID := Some "abc123";
     api_list := fun _ => Ok tt;
     api_fetch := fun _ => Ok fetched;
     create := service |}.

Definition answering (content : option string) : completion_service :=
  fun _ => Ok [content].

(** A service that answers with what it observes of the request it is
    given. *)
Definition observing (observe : request -> option string) : completion_service :=
  fun r => Ok [observe r].

(** The content of the user message of a request. *)
Definition user_content (r : request) : option string :=
  snd <$> List.find (fun m => String.eqb (fst m) "user") (messages r).

Definition failing (message : string) : completion_service :=
  fun _ => Raise (Exn message).

Definition empty_tracks : item := IDict {| fields := ∅; tracks := Some [] |}.

(** ** The preview of the transcript (lines 130-142) *)

(** Lines 133-142: the line printed for one of the first ten entries; a
    field of an f-string shows a value as [str()] does. *)
Definition preview_line (e : entry) : string :=
  match e with
  | EDict d =>
      let text := default (VStr "") (d !! "text") in
      let start := default (VInt 0) (d !! "start") in
      "[" +:+ py_str start +:+ "s] " +:+ py_str text
  | EObj shown attrs =>
      let text := default (VStr shown) (attrs !! "text") in
      let start := default (VInt 0) (attrs !! "start") in
      "[" +:+ py_str start +:+ "s] " +:+ py_str text
  end.

Definition preview (transcript : list entry) : list string :=
  preview_line <$> take 10 transcript.

(** *** Notions used by the further statements *)

Definition starts_with_space (s : string) : bool :=
  match s with
  | EmptyString => false
  | String c _ => is_space c
  end.

Fixpoint ends_with_space (s : string) : bool :=
  match s with
  | EmptyString => false
  | String c EmptyString => is_space c
  | String _ s' => ends_with_space s'
  end.

(** A text that [strip] leaves alone and that is not empty. *)
Definition clean (s : string) : Prop :=
  s <> EmptyString /\ starts_with_space s = false /\ ends_with_space s = false.

(** The entries the concatenator can read: every entry but a mapping
    that holds something else than a [str] under 'text'. *)
Definition text_is_str (e : entry) : bool :=
  match e with
  | EDict d =>
      match d !! "text" with
      | Some (VStr _) | None => true
      | Some _ => false
      end
  | EObj _ _ => true
  end.

(** An entry whose text is clean. *)
Definition entry_clean (e : entry) : Prop :=
  exists s, entry_text e = Ok s /\ clean s.

(** The tags a printed record can hold. *)
Definition printable_tags : list string := vocabulary ++ ["Unknown"].

(** Further sample runs. *)
Definition wrapper (ts : list track) : item := IDict {| fields := ∅; tracks := Some ts |}.

Definition class_wrapper (ts : list track) : item :=
  IObj "wrapper" {| fields := ∅; tracks := None |} {| fields := ∅; tracks := Some ts |}.

(** A service that answers the request for one transcript text only. *)
Definition answering_to (transcript_text : string) (content : option string)
    : completion_service :=
  fun r =>
    if bool_decide (messages r = messages (chat_request transcript_text))
    then Ok [content]
    else Raise (Exn "unexpected request").

(** Reads a member of a record built by [analysis_result] or
    [error_result]. *)
Ltac read_member :=
  cbn [member analysis_result error_result List.find fst snd
       String.eqb Ascii.eqb Bool.eqb fmap option_fmap option_map].

(** ** Text lemmas *)

Lemma app_empty_l (s : string) : "" +:+ s = s.
Proof. reflexivity. Qed.

Lemma app_cons (c : ascii) (s t : string) : String c s +:+ t = String c (s +:+ t).
Proof. reflexivity. Qed.

Lemma app_empty_r (s : string) : s +:+ "" = s.
Proof. induction s as [|c s IH]; [reflexivity|]. rewrite app_cons. by f_equal. Qed.

Lemma app_assoc (s t u : string) : (s +:+ t) +:+ u = s +:+ (t +:+ u).
Proof.
  induction s as [|c s IH]; [reflexivity|].
  rewrite !app_cons. by f_equal.
Qed.

Lemma length_app (s t : string) :
  String.length (s +:+ t) = (String.length s + String.length t)%nat.
Proof.
  induction s as [|c s IH]; [reflexivity|].
  rewrite app_cons. simpl. by rewrite IH.
Qed.

Lemma lower_app (s t : string) : lower (s +:+ t) = lower s +:+ lower t.
Proof.
  induction s as [|c s IH]; [reflexivity|].
  rewrite app_cons. simpl. rewrite app_cons. by f_equal.
Qed.

Lemma is_digit_value (c : ascii) : is_digit c = true -> 0 <= digit_value c <= 9.
Proof.
  unfold is_digit, digit_value. intros H.
  apply andb_prop in H as [Hlo Hhi].
  apply Nat.leb_le in Hlo. apply Nat.leb_le in Hhi. lia.
Qed.

(** *** The digit search *)

Lemma digits_prefix_run (run post : string) :
  all_chars is_digit run = true -> starts_with_digit post = false ->
  digits_prefix (run +:+ post) = run.
Proof.
  intros Hrun Hpost. induction run as [|c run IH].
  - rewrite app_empty_l. destruct post as [|d post]; [reflexivity|].
    simpl in *. by rewrite Hpost.
  - simpl in Hrun. apply andb_prop in Hrun as [Hc Hrun].
    rewrite app_cons. simpl. rewrite Hc. f_equal. by apply IH.
Qed.

Lemma digits_prefix_all_digits (s : string) : all_chars is_digit (digits_prefix s) = true.
Proof.
  induction s as [|c s IH]; [reflexivity|].
  simpl. destruct (is_digit c) eqn:Hc; [|reflexivity].
  simpl. by rewrite Hc.
Qed.

Lemma search_digits_leftmost (s run : string) :
  leftmost_digit_run s run -> search_digits s = Some run.
Proof.
  intros (pre & post & -> & Hpre & Hne & Hrun & Hpost).
  induction pre as [|c pre IH].
  - rewrite app_empty_l. destruct run as [|d run]; [done|].
    pose proof Hrun as Hd. simpl in Hd. apply andb_prop in Hd as [Hd _].
    rewrite app_cons. cbn [search_digits]. rewrite Hd.
    rewrite <- app_cons. f_equal. by apply digits_prefix_run.
  - simpl in Hpre. apply andb_prop in Hpre as [Hc Hpre].
    rewrite app_cons. cbn [search_digits].
    unfold non_digit in Hc. apply negb_true_iff in Hc. rewrite Hc. by apply IH.
Qed.

Lemma search_digits_some (s run : string) :
  search_digits s = Some run -> all_chars is_digit run = true /\ run <> EmptyString.
Proof.
  induction s as [|c s IH]; [done|].
  cbn [search_digits]. destruct (is_digit c) eqn:Hc; [|exact IH].
  intros [= <-]. rewrite Hc. split; [|done].
  simpl. rewrite Hc. apply digits_prefix_all_digits.
Qed.

Lemma search_digits_none (s : string) :
  all_chars non_digit s = true -> search_digits s = None.
Proof.
  induction s as [|c s IH]; [done|].
  simpl. intros H. apply andb_prop in H as [Hc Hs].
  unfold non_digit in Hc. apply negb_true_iff in Hc. rewrite Hc. by apply IH.
Qed.

(** *** Reading a numeral *)

Lemma int_from_numeral (s : string) (acc : Z) :
  int_from acc s = acc * 10 ^ Z.of_nat (String.length s) + numeral_value s.
Proof.
  revert acc. induction s as [|c s IH]; intros acc.
  - simpl. lia.
  - cbn [int_from numeral_value String.length]. rewrite IH.
    rewrite Nat2Z.inj_succ, Z.pow_succ_r by lia. ring.
Qed.

Lemma int_of_digits_numeral (s : string) : int_of_digits s = numeral_value s.
Proof. unfold int_of_digits. rewrite int_from_numeral. lia. Qed.

Lemma int_from_nonneg (s : string) (acc : Z) :
  all_chars is_digit s = true -> 0 <= acc -> 0 <= int_from acc s.
Proof.
  revert acc. induction s as [|c s IH]; intros acc Hs Hacc; [done|].
  simpl in Hs. apply andb_prop in Hs as [Hc Hs].
  apply is_digit_value in Hc. simpl. apply IH; [done|lia].
Qed.

(** ** The normaliser *)

Lemma toxicity_score_no_phrase (s : string) :
  contains "toxicity score" (lower s) = false -> toxicity_score s = 5.
Proof. unfold toxicity_score. by intros ->. Qed.

Lemma toxicity_score_no_digit (s : string) :
  all_chars non_digit s = true -> toxicity_score s = 5.
Proof.
  intros H. unfold toxicity_score. rewrite (search_digits_none s H).
  by destruct (contains _ _).
Qed.

Lemma toxicity_score_nonneg (s : string) : 0 <= toxicity_score s.
Proof.
  unfold toxicity_score. destruct (contains _ _); [|lia].
  destruct (search_digits s) as [run|] eqn:Hrun; [|lia].
  apply search_digits_some in Hrun as [Hrun _].
  by apply int_from_nonneg.
Qed.

(** C2. When the response mentions "toxicity score" (in any case), the
    score is the value of the leftmost maximal run of decimal digits of
    the whole response, wherever that run stands; when it does not, the
    score is the default 5. *)
Theorem toxicity_score_first_digit_run (s : string) :
  (contains "toxicity score" (lower s) = true ->
   forall run, leftmost_digit_run s run -> toxicity_score s = numeral_value run)
  /\ (contains "toxicity score" (lower s) = false -> toxicity_score s = 5).
Proof.
  split; [|apply toxicity_score_no_phrase].
  intros Hphrase run Hrun. unfold toxicity_score.
  rewrite Hphrase, (search_digits_leftmost s run Hrun).
  apply int_of_digits_numeral.
Qed.

Lemma toxicity_score_first_digit_run_witness :
  toxicity_score "In 2024, the toxicity score is 3" = 2024
  /\ toxicity_score "Nothing harmful was found." = 5.
Proof.
  split.
  - apply (proj1 (toxicity_score_first_digit_run "In 2024, the toxicity score is 3")
             eq_refl "2024").
    exists "In ", ", the toxicity score is 3".
    repeat split; [discriminate].
  - apply (proj2 (toxicity_score_first_digit_run "Nothing harmful was found.")).
    reflexivity.
Defined.

(** C3. When the response mentions "bias", the tags are the words of the
    vocabulary whose lowercase form occurs in the lowered response, in
    the order Political, Cultural, Gender, Racial and without repetition;
    when it does not, there is no tag, whatever else occurs. *)
Theorem bias_tags_vocabulary (s : string) :
  bias_tags s =
    (if contains "bias" (lower s)
     then List.filter (fun tag => contains (lower tag) (lower s)) vocabulary
     else [])
  /\ NoDup (bias_tags s).
Proof.
  unfold bias_tags, vocabulary. cbn [List.filter].
  change (lower "Political") with "political".
  change (lower "Cultural") with "cultural".
  change (lower "Gender") with "gender".
  change (lower "Racial") with "racial".
  destruct (contains "bias" (lower s)); [|split; [done|constructor]].
  destruct (contains "political" (lower s)), (contains "cultural" (lower s)),
    (contains "gender" (lower s)), (contains "racial" (lower s));
    (split; [reflexivity|]); cbn [app]; by apply (bool_decide_unpack _).
Qed.

(** C10. The score is never negative; it is 5 when the response lacks
    "toxicity score" and when it has no digit; a minus sign before the
    digits is not read; nothing caps the score at 10. *)
Theorem toxicity_score_range :
  (forall s, 0 <= toxicity_score s)
  /\ (forall s, contains "toxicity score" (lower s) = false -> toxicity_score s = 5)
  /\ (forall s, all_chars non_digit s = true -> toxicity_score s = 5)
  /\ toxicity_score "Toxicity score: -7" = 7
  /\ (exists s, 10 < toxicity_score s).
Proof.
  split; [apply toxicity_score_nonneg|].
  split; [apply toxicity_score_no_phrase|].
  split; [apply toxicity_score_no_digit|].
  split; [reflexivity|].
  exists "Toxicity score: 11 out of 10". reflexivity.
Qed.

Lemma toxicity_score_range_witness :
  toxicity_score "No bias at all" = 5
  /\ toxicity_score "The toxicity score is low" = 5.
Proof.
  destruct toxicity_score_range as (_ & Hphrase & Hdigit & _).
  split; [apply Hphrase|apply Hdigit]; reflexivity.
Defined.

(** ** The concatenator *)

Lemma rstrip_app_space (s : string) : rstrip (s +:+ " ") = rstrip s.
Proof.
  induction s as [|c s IH]; [reflexivity|].
  rewrite app_cons. cbn [rstrip]. by rewrite IH.
Qed.

Lemma strip_app_space (s : string) : strip (s +:+ " ") = strip s.
Proof. unfold strip. by rewrite rstrip_app_space. Qed.

Lemma spaced_join (texts : list string) :
  texts <> [] -> spaced texts = join " " texts +:+ " ".
Proof.
  induction texts as [|t [|t' rest] IH]; intros Hne; [done| |].
  - cbn [spaced join]. by rewrite app_empty_r.
  - change (spaced (t :: t' :: rest)) with (t +:+ " " +:+ spaced (t' :: rest)).
    change (join " " (t :: t' :: rest)) with (t +:+ " " +:+ join " " (t' :: rest)).
    rewrite IH by done. by rewrite !app_assoc.
Qed.

Lemma strip_spaced (texts : list string) : strip (spaced texts) = strip (join " " texts).
Proof.
  destruct texts as [|t rest]; [reflexivity|].
  rewrite spaced_join by done. apply strip_app_space.
Qed.

Lemma concat_entries_spaced (transcript : list entry) (full_text : string) :
  concat_entries full_text transcript =
    (texts ← mapM entry_text transcript; mret (full_text +:+ spaced texts)).
Proof.
  revert full_text. induction transcript as [|[d|shown attrs] rest IH]; intros full_text.
  - cbn. by rewrite app_empty_r.
  - cbn [concat_entries mapM entry_text]. unfold add_str.
    destruct (default (VStr "") (d !! "text")) as [| | |s]; try reflexivity.
    cbn. rewrite IH. destruct (mapM entry_text rest) as [texts|e]; [|reflexivity].
    cbn. by rewrite !app_assoc.
  - cbn [concat_entries mapM entry_text]. cbn. rewrite IH.
    destruct (mapM entry_text rest) as [texts|e]; [|reflexivity].
    cbn. by rewrite !app_assoc.
Qed.

(** When every entry yields a text, the result is their stripped join. *)
Lemma get_full_transcript_text_texts (transcript : list entry) (texts : list string) :
  mapM entry_text transcript = Ok texts ->
  get_full_transcript_text transcript = Ok (strip (join " " texts)).
Proof.
  intros Htexts. unfold get_full_transcript_text.
  rewrite concat_entries_spaced, Htexts. cbn.
  by rewrite app_empty_l, strip_spaced.
Qed.

Lemma mapM_entry_text_mapping (content : list TranscriptEntry) :
  mapM entry_text (as_mapping <$> content) = Ok (text <$> content).
Proof.
  induction content as [|e content IH]; [reflexivity|].
  cbn [fmap list_fmap mapM]. rewrite IH.
  unfold as_mapping at 1, entry_text at 1. by rewrite lookup_insert_eq.
Qed.

Lemma mapM_entry_text_object shown (content : list TranscriptEntry) :
  mapM entry_text (as_object shown <$> content) = Ok (text <$> content).
Proof.
  induction content as [|e content IH]; [reflexivity|].
  cbn [fmap list_fmap mapM]. rewrite IH.
  unfold as_object at 1, entry_text at 1. by rewrite lookup_insert_eq.
Qed.

(** C5, as amended. The concatenator returns the texts of the entries
    joined by single spaces and stripped, where the text of a mapping is
    its value under 'text' (the empty text without the key) and the text
    of any other entry is [str()] of its attribute [text], or of the entry
    itself when it has no such attribute; a mapping whose 'text' is not a
    [str] makes it raise. *)
Theorem get_full_transcript_text_joined (transcript : list entry) :
  get_full_transcript_text transcript =
    (texts ← mapM entry_text transcript; mret (strip (join " " texts))).
Proof.
  destruct (mapM entry_text transcript) as [texts|e] eqn:Htexts.
  - by apply get_full_transcript_text_texts.
  - unfold get_full_transcript_text. by rewrite concat_entries_spaced, Htexts.
Qed.

(** C5, as stated, fails on an entry that is no mapping and has no
    attribute [text], such as a plain [str]: its text is [str(entry)],
    not the empty text. *)
Lemma get_full_transcript_text_default_counterexample :
  get_full_transcript_text [EObj "hello" ∅] = Ok "hello"
  /\ get_full_transcript_text [EObj "hello" ∅]
     <> Ok (strip (join " " (stated_text <$> [EObj "hello" ∅]))).
Proof. split; [reflexivity|discriminate]. Qed.

(** C6. The same content presented as mappings and as attribute-bearing
    objects gives the same text, the joined and stripped texts of the
    content. *)
Theorem get_full_transcript_text_presentation shown (content : list TranscriptEntry) :
  get_full_transcript_text (as_mapping <$> content)
    = get_full_transcript_text (as_object shown <$> content)
  /\ get_full_transcript_text (as_mapping <$> content)
    = Ok (strip (join " " (text <$> content))).
Proof.
  rewrite (get_full_transcript_text_texts _ _ (mapM_entry_text_mapping content)).
  by rewrite (get_full_transcript_text_texts _ _ (mapM_entry_text_object shown content)).
Qed.

(** ** The analyser *)

Lemma length_slice_to (n : nat) (s : string) :
  String.length (slice_to n s) = Nat.min n (String.length s).
Proof.
  revert s. induction n as [|n IH]; intros [|c s]; try reflexivity.
  simpl. by rewrite IH.
Qed.

Lemma slice_to_prefix (n : nat) (s : string) : exists rest, s = slice_to n s +:+ rest.
Proof.
  revert s. induction n as [|n IH]; intros s.
  - by exists s.
  - destruct s as [|c s]; [by exists ""|].
    destruct (IH s) as [rest Hrest]. exists rest.
    simpl. rewrite app_cons. by f_equal.
Qed.

Lemma slice_to_all (n : nat) (s : string) :
  (String.length s <= n)%nat -> slice_to n s = s.
Proof.
  revert s. induction n as [|n IH]; intros [|c s] Hlen; try reflexivity.
  - simpl in Hlen. lia.
  - simpl in *. f_equal. apply IH. lia.
Qed.

Lemma slice_to_idemp (n : nat) (s : string) : slice_to n (slice_to n s) = slice_to n s.
Proof. apply slice_to_all. rewrite length_slice_to. lia. Qed.

Lemma analyze_content_raise (create : completion_service) (transcript_text video_id : string) e :
  create (chat_request transcript_text) = Raise e ->
  analyze_content create transcript_text video_id
    = Some ("Error analyzing content: " +:+ str_exn e).
Proof. unfold analyze_content. by intros ->. Qed.

Lemma error_text_toxicity_phrase (m : string) :
  contains "toxicity score" (lower ("Error analyzing content: " +:+ m))
    = contains "toxicity score" (lower m).
Proof. rewrite lower_app. reflexivity. Qed.

Lemma error_text_bias (m : string) :
  contains "bias" (lower ("Error analyzing content: " +:+ m)) = contains "bias" (lower m).
Proof. rewrite lower_app. reflexivity. Qed.

(** C9. The analyser submits one request to the completion service, the
    one whose user message is the template around the first 4000
    characters of the transcript text: whatever a service observes of the
    request it is given, it observes it of that request, and a service
    that echoes the user message it is given returns that prompt. The
    embedded text is a prefix of the transcript text of at most 4000
    characters, the whole text when that is no longer; what comes after
    plays no part. *)
Theorem prompt_embeds_first_4000 (transcript_text : string) :
  messages (chat_request transcript_text)
    = [("system", system_content);
       ("user", prompt_head +:+ slice_to 4000 transcript_text +:+ prompt_tail)]
  /\ String.length (slice_to 4000 transcript_text)
     = Nat.min 4000 (String.length transcript_text)
  /\ (exists rest, transcript_text = slice_to 4000 transcript_text +:+ rest)
  /\ ((String.length transcript_text <= 4000)%nat ->
      slice_to 4000 transcript_text = transcript_text)
  /\ (forall create video_id,
        analyze_content create transcript_text video_id
        = analyze_content create (slice_to 4000 transcript_text) video_id)
  /\ (forall observe video_id,
        analyze_content (observing observe) transcript_text video_id
        = observe (chat_request transcript_text))
  /\ (forall video_id,
        analyze_content (observing user_content) transcript_text video_id
        = Some (prompt_head +:+ slice_to 4000 transcript_text +:+ prompt_tail))
  /\ (forall create create' video_id,
        create (chat_request transcript_text) = create' (chat_request transcript_text) ->
        analyze_content create transcript_text video_id
        = analyze_content create' transcript_text video_id).
Proof.
  split; [reflexivity|].
  split; [apply length_slice_to|].
  split; [apply slice_to_prefix|].
  split; [apply slice_to_all|].
  split.
  { intros create video_id. unfold analyze_content, chat_request, prompt.
    by rewrite slice_to_idemp. }
  split; [reflexivity|].
  split; [reflexivity|].
  intros create create' video_id Hsame. unfold analyze_content. by rewrite Hsame.
Qed.

Lemma prompt_embeds_first_4000_witness :
  slice_to 4000 "a short transcript" = "a short transcript"
  /\ analyze_content (observing user_content) "a short transcript" "abc123"
     = Some (prompt_head +:+ "a short transcript" +:+ prompt_tail)
  /\ analyze_content (answering (Some "Toxicity score: 2")) "a short transcript" "abc123"
     = analyze_content (answering_to "a short transcript" (Some "Toxicity score: 2"))
         "a short transcript" "abc123".
Proof.
  destruct (prompt_embeds_first_4000 "a short transcript")
    as (_ & _ & _ & Hwhole & _ & _ & Hecho & Hsame).
  split; [|split].
  - apply Hwhole. apply Nat.leb_le. reflexivity.
  - exact (Hecho "abc123").
  - apply Hsame. reflexivity.
Defined.

(** ** The entry point *)

Lemma eval_ok_bind {A B} (a : A) (k : A -> M B) : (eval (Ok a) ≫= k) = k a.
Proof. unfold mbind, M_bind, eval. simpl. by destruct (k a). Qed.

Lemma eval_raise_bind {A B} (e : exn) (k : A -> M B) :
  (eval (Raise e) ≫= k) = Run [] (Raise e).
Proof. reflexivity. Qed.

Lemma analysis_result_full_shaped video_id score tags analysis :
  full_shaped (analysis_result video_id score tags analysis).
Proof. reflexivity. Qed.

Lemma error_result_error_shaped error video_id : error_shaped (error_result error video_id).
Proof. reflexivity. Qed.

Lemma full_shaped_not_error_shaped doc : full_shaped doc -> ~ error_shaped doc.
Proof. unfold full_shaped, error_shaped. intros ->. discriminate. Qed.

(** *** The inner [try] *)

Lemma report_structured video_id analysis doc :
  structured_result video_id analysis = Ok doc ->
  report video_id analysis = Run [doc] (Ok tt).
Proof. unfold report. by intros ->. Qed.

Lemma report_fallback video_id analysis e :
  structured_result video_id analysis = Raise e ->
  report video_id analysis = Run [analysis_result video_id 5 ["Unknown"] analysis] (Ok tt).
Proof. unfold report. by intros ->. Qed.

Lemma report_one_document video_id analysis :
  exists doc, report video_id analysis = Run [doc] (Ok tt) /\ full_shaped doc.
Proof.
  destruct (structured_result video_id analysis) as [doc|e] eqn:Hdoc.
  - exists doc. split; [by apply report_structured|].
    destruct analysis as [a|]; [|done]. by injection Hdoc as <-.
  - eexists. split; [by eapply report_fallback|apply analysis_result_full_shaped].
Qed.

(** *** From the transcript on *)

Lemma analyse_ok (w : world) video_id transcript full_text :
  get_full_transcript_text transcript = Ok full_text ->
  analyse w video_id transcript
    = report video_id (analyze_content (create w) full_text video_id).
Proof. unfold analyse. intros ->. by rewrite eval_ok_bind. Qed.

Lemma analyse_raise (w : world) video_id transcript e :
  get_full_transcript_text transcript = Raise e ->
  analyse w video_id transcript = Run [] (Raise e).
Proof. unfold analyse. by intros ->. Qed.

Lemma analyse_outcomes (w : world) video_id transcript :
  (exists doc, analyse w video_id transcript = Run [doc] (Ok tt) /\ full_shaped doc)
  \/ (exists e, analyse w video_id transcript = Run [] (Raise e)).
Proof.
  destruct (get_full_transcript_text transcript) as [full_text|e] eqn:Htext.
  - left. rewrite (analyse_ok _ _ _ _ Htext). apply report_one_document.
  - right. exists e. by apply analyse_raise.
Qed.

(** *** The fetch step *)

Lemma fetch_and_analyse_selected (w : world) video_id result_list transcript :
  api_list w video_id = Ok tt ->
  api_fetch w video_id = Ok result_list ->
  selected_transcript result_list = Some transcript ->
  fetch_and_analyse w video_id = analyse w video_id transcript.
Proof.
  intros Hlist Hfetch Hsel. unfold fetch_and_analyse.
  rewrite Hlist, eval_ok_bind, Hfetch, eval_ok_bind.
  destruct result_list as [|first_result rest]; [done|].
  cbn [selected_transcript] in Hsel. cbv zeta.
  destruct (tracks (result_dict_of first_result)) as [[|t ts]|].
  - done.
  - by injection Hsel as <-.
  - destruct (attr_tracks first_result) as [[|t ts]|]; [done| |by injection Hsel as <-].
    cbn [index0]. rewrite eval_ok_bind. unfold getitem_transcript.
    rewrite Hsel. by rewrite eval_ok_bind.
Qed.

(** Every other run prints exactly one document, of one of the two shapes. *)
Lemma main_one_document (w : world) :
  ~ no_tracks_found w ->
  exists doc, main w = [doc] /\ (full_shaped doc \/ error_shaped doc).
Proof.
  intros Hnot. unfold main, fetch_and_analyse. cbv zeta.
  set (video_id := video_id_of w).
  assert (Herr : forall e, exists doc,
    printed (try_except (Run [] (Raise e) : M unit)
      (fun e => print_json (error_result ("Analysis failed: " +:+ str_exn e) video_id)))
      = [doc] /\ (full_shaped doc \/ error_shaped doc)).
  { intros e. eexists. split; [reflexivity|]. right. apply error_result_error_shaped. }
  assert (Han : forall transcript, exists doc,
    printed (try_except (analyse w video_id transcript)
      (fun e => print_json (error_result ("Analysis failed: " +:+ str_exn e) video_id)))
      = [doc] /\ (full_shaped doc \/ error_shaped doc)).
  { intros transcript.
    destruct (analyse_outcomes w video_id transcript) as [(doc & -> & Hdoc)|[e ->]].
    - exists doc. split; [reflexivity|by left].
    - apply Herr. }
  destruct (api_list w video_id) as [[]|e] eqn:Hlist; [|apply Herr].
  rewrite eval_ok_bind.
  destruct (api_fetch w video_id) as [result_list|e] eqn:Hfetch; [|apply Herr].
  rewrite eval_ok_bind.
  destruct result_list as [|first_result rest].
  { eexists. split; [reflexivity|]. right. apply error_result_error_shaped. }
  destruct (tracks (result_dict_of first_result)) as [[|t ts]|] eqn:Htracks.
  - destruct Hnot. split; [done|]. by exists first_result, rest.
  - apply Han.
  - destruct (attr_tracks first_result) as [[|t ts]|]; [apply Herr| |apply Han].
    cbn [index0]. rewrite eval_ok_bind. unfold getitem_transcript.
    destruct (t !! "transcript") as [transcript|].
    + rewrite eval_ok_bind. apply Han.
    + apply Herr.
Qed.

(** C1. A run that finds 'tracks' in [result_dict] with an empty list
    under it prints no document at all, neither the record nor the error
    record: lines 120-121 leave [main] before any [json.dumps]. *)
Theorem main_empty_tracks_prints_nothing (w : world) :
  no_tracks_found w -> main w = [].
Proof.
  intros (Hlist & first_result & rest & Hfetch & Htracks).
  unfold main, fetch_and_analyse. cbv zeta.
  rewrite Hlist, eval_ok_bind, Hfetch, eval_ok_bind, Htracks. reflexivity.
Qed.

Lemma main_empty_tracks_prints_nothing_witness :
  main (run_with [empty_tracks] (answering (Some "Toxicity score: 2"))) = [].
Proof.
  apply (main_empty_tracks_prints_nothing
           (run_with [empty_tracks] (answering (Some "Toxicity score: 2")))).
  split; [reflexivity|]. exists empty_tracks, []. split; reflexivity.
Defined.

(** C8. When the fetch gives no element, the one document printed is the
    error record with the text "No transcript data returned" and the
    video identifier. *)
Theorem main_no_entries (w : world) :
  api_list w (video_id_of w) = Ok tt ->
  api_fetch w (video_id_of w) = Ok [] ->
  main w = [JObject [("error", JStr "No transcript data returned");
                     ("videoId", JStr (video_id_of w))]].
Proof.
  intros Hlist Hfetch. unfold main, fetch_and_analyse. cbv zeta.
  rewrite Hlist, eval_ok_bind, Hfetch, eval_ok_bind. reflexivity.
Qed.

Lemma main_no_entries_witness :
  main (run_with [] (answering (Some "Toxicity score: 2")))
    = [JObject [("error", JStr "No transcript data returned"); ("videoId", JStr "abc123")]].
Proof.
  apply (main_no_entries (run_with [] (answering (Some "Toxicity score: 2"))));
    reflexivity.
Defined.

(** *** Runs that reach the analysis *)

Section Reaching_the_analysis.

(** A run in which the fetch step hands over a transcript and the
    concatenation gives [full_text]. *)
Variable w : world.
Variable result_list : list item.
Variable transcript : list entry.
Variable full_text : string.

Hypothesis listed : api_list w (video_id_of w) = Ok tt.
Hypothesis fetched : api_fetch w (video_id_of w) = Ok result_list.
Hypothesis selected : selected_transcript result_list = Some transcript.
Hypothesis concatenated : get_full_transcript_text transcript = Ok full_text.

(** [main] prints what [report] prints. *)
Lemma main_reports :
  main w = printed (report (video_id_of w)
                      (analyze_content (create w) full_text (video_id_of w))).
Proof using listed fetched selected concatenated.
  unfold main. cbv zeta.
  rewrite (fetch_and_analyse_selected _ _ _ _ listed fetched selected).
  rewrite (analyse_ok _ _ _ _ concatenated).
  destruct (report_one_document (video_id_of w)
              (analyze_content (create w) full_text (video_id_of w))) as (doc & -> & _).
  reflexivity.
Qed.

(** C4. When the completion call raises with message [m], the analyser
    returns "Error analyzing content: " followed by [m], and the run goes
    on: the one document printed is the full record, not the error
    record, with that text as its analysis, score 5 when [m] does not
    mention "toxicity score" and no tag when [m] does not mention "bias". *)
Theorem analyser_failure_flows_downstream (e : exn) :
  create w (chat_request full_text) = Raise e ->
  analyze_content (create w) full_text (video_id_of w)
    = Some ("Error analyzing content: " +:+ str_exn e)
  /\ exists doc,
       main w = [doc]
       /\ full_shaped doc /\ ~ error_shaped doc
       /\ member "analysis" doc = Some (JStr ("Error analyzing content: " +:+ str_exn e))
       /\ (contains "toxicity score" (lower (str_exn e)) = false ->
           member "toxicityScore" doc = Some (JInt 5))
       /\ (contains "bias" (lower (str_exn e)) = false ->
           member "biasTags" doc = Some (JList [])).
Proof using listed fetched selected concatenated.
  intros Hcreate.
  pose proof (analyze_content_raise _ _ (video_id_of w) _ Hcreate) as Ha.
  split; [exact Ha|].
  rewrite main_reports, Ha.
  eexists. split; [reflexivity|].
  split; [reflexivity|]. split; [discriminate|]. split; [reflexivity|]. split.
  - intros Hphrase. read_member.
    do 2 f_equal. apply toxicity_score_no_phrase.
    by rewrite error_text_toxicity_phrase.
  - intros Hbias. read_member.
    do 2 f_equal. unfold bias_tags. by rewrite error_text_bias, Hbias.
Qed.

(** C7. When building the structured result raises, the run still prints
    one full record: score 5, the single tag "Unknown", and the analysis
    as it was obtained. *)
Theorem normaliser_failure_falls_back (e : exn) :
  structured_result (video_id_of w)
    (analyze_content (create w) full_text (video_id_of w)) = Raise e ->
  exists doc,
    main w = [doc]
    /\ full_shaped doc /\ ~ error_shaped doc
    /\ member "toxicityScore" doc = Some (JInt 5)
    /\ member "biasTags" doc = Some (JList [JStr "Unknown"])
    /\ member "analysis" doc
       = Some (json_of_text (analyze_content (create w) full_text (video_id_of w))).
Proof using listed fetched selected concatenated.
  intros Hraise.
  rewrite main_reports, (report_fallback _ _ _ Hraise).
  eexists. split; [reflexivity|].
  split; [reflexivity|]. split; [discriminate|]. repeat split.
Qed.

End Reaching_the_analysis.

Lemma analyser_failure_flows_downstream_witness :
  exists doc,
    main (run_with [snippet "Hello"; snippet "world"] (failing "Connection error.")) = [doc]
    /\ full_shaped doc
    /\ member "analysis" doc = Some (JStr "Error analyzing content: Connection error.")
    /\ member "toxicityScore" doc = Some (JInt 5)
    /\ member "biasTags" doc = Some (JList []).
Proof.
  destruct (analyser_failure_flows_downstream
              (run_with [snippet "Hello"; snippet "world"] (failing "Connection error."))
              [snippet "Hello"; snippet "world"]
              (entry_of_item <$> [snippet "Hello"; snippet "world"])
              "Hello world"
              eq_refl eq_refl eq_refl eq_refl
              (Exn "Connection error.") eq_refl)
    as (_ & doc & Hmain & Hshape & _ & Hanalysis & Hscore & Htags).
  exists doc. repeat split; [exact Hmain|exact Hshape|exact Hanalysis| |].
  - apply Hscore. reflexivity.
  - apply Htags. reflexivity.
Defined.

Lemma normaliser_failure_falls_back_witness :
  exists doc,
    main (run_with [snippet "Hello"; snippet "world"] (answering None)) = [doc]
    /\ full_shaped doc
    /\ member "toxicityScore" doc = Some (JInt 5)
    /\ member "biasTags" doc = Some (JList [JStr "Unknown"])
    /\ member "analysis" doc = Some JNull.
Proof.
  destruct (normaliser_failure_falls_back
              (run_with [snippet "Hello"; snippet "world"] (answering None))
              [snippet "Hello"; snippet "world"]
              (entry_of_item <$> [snippet "Hello"; snippet "world"])
              "Hello world"
              eq_refl eq_refl eq_refl eq_refl
              (Exn "'NoneType' object has no attribute 'lower'") eq_refl)
    as (doc & Hmain & Hshape & _ & Hscore & Htags & Hanalysis).
  by exists doc.
Defined.

(** ** Worked examples *)

Example toxicity_score_plain :
  toxicity_score "Toxicity score: 7 out of 10" = 7.
Proof. reflexivity. Qed.

Example toxicity_score_year_first :
  toxicity_score "In 2024, the TOXICITY SCORE is 3" = 2024.
Proof. reflexivity. Qed.

Example toxicity_score_without_phrase :
  toxicity_score "Rated 9 out of 10 for toxicity" = 5.
Proof. reflexivity. Qed.

Example bias_tags_gender :
  bias_tags "Some GENDER Bias was found" = ["Gender"].
Proof. reflexivity. Qed.

Example bias_tags_order :
  bias_tags "racial and political bias" = ["Political"; "Racial"].
Proof. reflexivity. Qed.

Example bias_tags_without_bias :
  bias_tags "political, cultural, gender, racial" = [].
Proof. reflexivity. Qed.

Example get_full_transcript_text_mixed :
  get_full_transcript_text
    [EDict {[ "text" := VStr " Hello" ]}; EDict ∅;
     EObj "<snippet>" {[ "text" := VInt 42 ]}; EObj "there " ∅]
  = Ok "Hello  42 there".
Proof. reflexivity. Qed.

Example get_full_transcript_text_raises :
  get_full_transcript_text [EDict {[ "text" := VFloat "1.5" ]}]
  = Raise (Exn "unsupported operand type(s) for +: 'float' and 'str'").
Proof. reflexivity. Qed.

Example main_full_run :
  main (run_with [snippet "Hello"; snippet "world"]
          (answering (Some "Toxicity score: 7 out of 10. Some gender bias.")))
  = [analysis_result "abc123" 7 ["Gender"]
       (Some "Toxicity score: 7 out of 10. Some gender bias.")].
Proof. reflexivity. Qed.

Example main_fetch_raises :
  main {| env_VIDEO_ID := None;
          api_list := fun _ => Ok tt;
          api_fetch := fun _ => Raise (Exn "Subtitles are disabled for this video");
          create := answering None |}
  = [error_result "Analysis failed: Subtitles are disabled for this video" "5NojPQTNx9s"].
Proof. reflexivity. Qed.

Example main_tracks_wrapper :
  main (run_with
          [IDict {| fields := ∅;
                    tracks := Some [{[ "transcript" := [EDict {[ "text" := VStr "Hi" ]}] ]}] |}]
          (answering (Some "No issues.")))
  = [analysis_result "abc123" 5 [] (Some "No issues.")].
Proof. reflexivity. Qed.

(** ** Further properties of the normaliser *)

(** *** Letter case *)

Lemma lower_char_keeps_digits (c : ascii) : is_digit (lower_char c) = is_digit c.
Proof. by destruct c as [[] [] [] [] [] [] [] []]. Qed.

Lemma lower_char_digit_fixed (c : ascii) :
  is_digit (lower_char c) = true -> lower_char c = c.
Proof. by destruct c as [[] [] [] [] [] [] [] []]. Qed.

Lemma lower_char_digit_inj (c c' : ascii) :
  lower_char c = lower_char c' -> is_digit c = true -> c = c'.
Proof.
  intros Heq Hc. rewrite <- lower_char_keeps_digits in Hc.
  rewrite <- (lower_char_digit_fixed c Hc). rewrite Heq in Hc |- *.
  by apply lower_char_digit_fixed.
Qed.

Lemma digits_prefix_lower (s s' : string) :
  lower s = lower s' -> digits_prefix s = digits_prefix s'.
Proof.
  revert s'. induction s as [|c s IH]; intros [|c' s']; try done.
  cbn [lower]. intros [= Hc Hs]. cbn [digits_prefix].
  destruct (is_digit c) eqn:Hd.
  - rewrite <- (lower_char_digit_inj c c' Hc Hd), Hd. f_equal. by apply IH.
  - rewrite <- (lower_char_keeps_digits c'), <- Hc, lower_char_keeps_digits, Hd. done.
Qed.

Lemma search_digits_lower (s s' : string) :
  lower s = lower s' -> search_digits s = search_digits s'.
Proof.
  revert s'. induction s as [|c s IH]; intros [|c' s'] Heq; try done.
  pose proof (digits_prefix_lower _ _ Heq) as Hprefix.
  cbn [lower] in Heq. injection Heq as Hc Hs. cbn [search_digits].
  assert (is_digit c' = is_digit c) as ->.
  { by rewrite <- (lower_char_keeps_digits c'), <- Hc, lower_char_keeps_digits. }
  destruct (is_digit c); [by rewrite Hprefix|by apply IH].
Qed.

(** X1. Two responses that differ in the case of their letters only get
    the same score and the same tags. *)
Theorem normaliser_ignores_case (s s' : string) :
  lower s = lower s' ->
  toxicity_score s = toxicity_score s' /\ bias_tags s = bias_tags s'.
Proof.
  intros Heq. unfold toxicity_score, bias_tags.
  by rewrite (search_digits_lower _ _ Heq), Heq.
Qed.

Lemma normaliser_ignores_case_witness :
  toxicity_score "TOXICITY Score: 7/10. Gender BIAS."
    = toxicity_score "toxicity score: 7/10. gender bias."
  /\ bias_tags "TOXICITY Score: 7/10. Gender BIAS."
    = bias_tags "toxicity score: 7/10. gender bias.".
Proof.
  apply (normaliser_ignores_case "TOXICITY Score: 7/10. Gender BIAS."
           "toxicity score: 7/10. gender bias.").
  reflexivity.
Defined.

(** *** Text around a response *)

Lemma contains_cons (needle : string) (c : ascii) (s : string) :
  contains needle (String c s) = (startswith needle (String c s) || contains needle s).
Proof. reflexivity. Qed.

Lemma startswith_app (needle s after : string) :
  startswith needle s = true -> startswith needle (s +:+ after) = true.
Proof.
  revert s. induction needle as [|a needle IH]; intros s H.
  - by destruct (s +:+ after).
  - destruct s as [|b s]; [done|]. rewrite app_cons. simpl in *.
    destruct (Ascii.eqb a b); [by apply IH|done].
Qed.

Lemma contains_startswith (needle s : string) :
  startswith needle s = true -> contains needle s = true.
Proof. intros H. destruct s; simpl; by rewrite H. Qed.

Lemma contains_app_r (needle s after : string) :
  contains needle s = true -> contains needle (s +:+ after) = true.
Proof.
  induction s as [|c s IH]; intros H.
  - apply contains_startswith, (startswith_app needle "" after).
    simpl in H. by rewrite orb_false_r in H.
  - rewrite contains_cons in H. rewrite app_cons, contains_cons.
    apply orb_true_iff in H as [H|H]; apply orb_true_iff.
    + left. by apply (startswith_app needle (String c s) after).
    + right. by apply IH.
Qed.

Lemma contains_app_l (needle before s : string) :
  contains needle s = true -> contains needle (before +:+ s) = true.
Proof.
  intros H. induction before as [|c before IH]; [done|].
  rewrite app_cons, contains_cons. apply orb_true_iff. by right.
Qed.

Lemma contains_lower_around (needle before s after : string) :
  contains needle (lower s) = true ->
  contains needle (lower (before +:+ s +:+ after)) = true.
Proof.
  intros H. rewrite !lower_app. by apply contains_app_l, contains_app_r.
Qed.

(** X2. Text put before or after a response never takes a tag away: the
    tags of the response are a sublist of the tags of the longer text. *)
Theorem bias_tags_monotone (before s after : string) :
  sublist (bias_tags s) (bias_tags (before +:+ s +:+ after)).
Proof.
  pose proof (contains_lower_around "bias" before s after) as Hbias.
  pose proof (contains_lower_around "political" before s after) as Hpolitical.
  pose proof (contains_lower_around "cultural" before s after) as Hcultural.
  pose proof (contains_lower_around "gender" before s after) as Hgender.
  pose proof (contains_lower_around "racial" before s after) as Hracial.
  unfold bias_tags.
  destruct (contains "bias" (lower s)); [|apply sublist_nil_l].
  rewrite (Hbias eq_refl).
  destruct (contains "political" (lower s));
    [rewrite (Hpolitical eq_refl)
    |destruct (contains "political" (lower (before +:+ s +:+ after)))];
  (destruct (contains "cultural" (lower s));
    [rewrite (Hcultural eq_refl)
    |destruct (contains "cultural" (lower (before +:+ s +:+ after)))]);
  (destruct (contains "gender" (lower s));
    [rewrite (Hgender eq_refl)
    |destruct (contains "gender" (lower (before +:+ s +:+ after)))]);
  (destruct (contains "racial" (lower s));
    [rewrite (Hracial eq_refl)
    |destruct (contains "racial" (lower (before +:+ s +:+ after)))]);
  cbn [app]; repeat (first [apply sublist_nil_l | apply sublist_skip | apply sublist_cons]).
Qed.

(** *** Size of the score *)

Lemma numeral_value_bound (run : string) :
  all_chars is_digit run = true ->
  0 <= numeral_value run < 10 ^ Z.of_nat (String.length run).
Proof.
  induction run as [|c run IH]; intros Hrun; [simpl; lia|].
  simpl in Hrun. apply andb_prop in Hrun as [Hc Hrun].
  apply is_digit_value in Hc. specialize (IH Hrun).
  cbn [numeral_value String.length]. rewrite Nat2Z.inj_succ, Z.pow_succ_r by lia.
  nia.
Qed.

(** X3. When the response mentions "toxicity score", the score has at
    most as many digits as the leftmost run of digits: with a run of [k]
    digits it lies from 0 to 10^k - 1, so a single digit gives 0 to 9. *)
Theorem toxicity_score_digits (s run : string) :
  contains "toxicity score" (lower s) = true ->
  leftmost_digit_run s run ->
  0 <= toxicity_score s < 10 ^ Z.of_nat (String.length run).
Proof.
  intros Hphrase Hrun. unfold toxicity_score.
  rewrite Hphrase, (search_digits_leftmost s run Hrun), int_of_digits_numeral.
  apply numeral_value_bound. by destruct Hrun as (? & ? & _ & _ & _ & ? & _).
Qed.

Lemma toxicity_score_digits_witness :
  0 <= toxicity_score "Toxicity score: 7.5 of 10" < 10.
Proof.
  apply (toxicity_score_digits "Toxicity score: 7.5 of 10" "7"); [reflexivity|].
  exists "Toxicity score: ", ".5 of 10". repeat split. discriminate.
Defined.

(** ** Further properties of the concatenator *)

(** *** Stripping *)

Lemma lstrip_starts (s : string) : starts_with_space (lstrip s) = false.
Proof.
  induction s as [|c s IH]; [done|].
  simpl. destruct (is_space c) eqn:Hc; [done|]. simpl. by rewrite Hc.
Qed.

Lemma rstrip_ends (s : string) : ends_with_space (rstrip s) = false.
Proof.
  induction s as [|c s IH]; [done|].
  cbn [rstrip]. destruct (rstrip s) as [|d r].
  - destruct (is_space c) eqn:Hc; [done|]. simpl. by rewrite Hc.
  - exact IH.
Qed.

Lemma lstrip_keeps_end (s : string) :
  ends_with_space s = false -> ends_with_space (lstrip s) = false.
Proof.
  induction s as [|c s IH]; [done|].
  intros H. cbn [lstrip]. destruct (is_space c) eqn:Hc; [|done].
  apply IH. destruct s as [|d s]; [done|]. exact H.
Qed.

Lemma lstrip_fixed (s : string) : starts_with_space s = false -> lstrip s = s.
Proof. destruct s as [|c s]; [done|]. simpl. by intros ->. Qed.

Lemma rstrip_fixed (s : string) : ends_with_space s = false -> rstrip s = s.
Proof.
  induction s as [|c s IH]; [done|].
  intros H. cbn [rstrip]. destruct s as [|d s].
  - simpl in *. by rewrite H.
  - rewrite IH by exact H. done.
Qed.

Lemma strip_fixed (s : string) :
  starts_with_space s = false -> ends_with_space s = false -> strip s = s.
Proof. intros Hs He. unfold strip. by rewrite (rstrip_fixed s He), lstrip_fixed. Qed.

Lemma strip_trimmed (s : string) :
  starts_with_space (strip s) = false /\ ends_with_space (strip s) = false.
Proof.
  unfold strip. split; [apply lstrip_starts|].
  apply lstrip_keeps_end, rstrip_ends.
Qed.

(** X4. A text returned by the concatenator neither starts nor ends with
    white space, and stripping it again changes nothing. *)
Theorem get_full_transcript_text_trimmed (transcript : list entry) (full_text : string) :
  get_full_transcript_text transcript = Ok full_text ->
  starts_with_space full_text = false
  /\ ends_with_space full_text = false
  /\ strip full_text = full_text.
Proof.
  unfold get_full_transcript_text.
  destruct (concat_entries "" transcript) as [raw|e]; [|done].
  cbn. intros [= <-].
  destruct (strip_trimmed raw) as [Hs He].
  repeat split; [done..|by apply strip_fixed].
Qed.

Lemma get_full_transcript_text_trimmed_witness :
  starts_with_space "Hello   world" = false
  /\ ends_with_space "Hello   world" = false
  /\ strip "Hello   world" = "Hello   world".
Proof.
  apply (get_full_transcript_text_trimmed
           [EObj "  Hello " ∅; EDict {[ "text" := VStr " world " ]}]).
  reflexivity.
Defined.

(** *** Entries that cannot be read *)

Lemma entry_text_readable (x : entry) :
  text_is_str x = true -> exists s, entry_text x = Ok s.
Proof.
  destruct x as [d|shown attrs]; [|by eexists].
  unfold text_is_str, entry_text.
  destruct (d !! "text") as [[| | |s]|]; try done; by eexists.
Qed.

Lemma entry_text_unreadable (x : entry) (e : exn) :
  entry_text x = Raise e ->
  exists d v, x = EDict d /\ d !! "text" = Some v
              /\ text_is_str x = false /\ e = unsupported_add v.
Proof.
  destruct x as [d|shown attrs]; [|done].
  unfold text_is_str, entry_text.
  destruct (d !! "text") as [[| | |s]|] eqn:Hd; try done;
    cbn; intros [= <-]; by eexists _, _.
Qed.

Lemma entry_text_unreadable_inv (d : gmap string value) (v : value) :
  d !! "text" = Some v -> text_is_str (EDict d) = false ->
  entry_text (EDict d) = Raise (unsupported_add v).
Proof.
  unfold text_is_str, entry_text. intros ->. by destruct v.
Qed.

Lemma mapM_entry_text_cons (x : entry) (rest : list entry) :
  mapM entry_text (x :: rest) =
    (s ← entry_text x; texts ← mapM entry_text rest; mret (s :: texts)).
Proof. reflexivity. Qed.

Lemma get_full_transcript_text_raise (transcript : list entry) (e : exn) :
  get_full_transcript_text transcript = Raise e <-> mapM entry_text transcript = Raise e.
Proof.
  unfold get_full_transcript_text. rewrite concat_entries_spaced.
  destruct (mapM entry_text transcript) as [texts|e']; cbn;
    [split; discriminate|split; by intros [= ->]].
Qed.

Lemma mapM_entry_text_raise (transcript : list entry) (e : exn) :
  mapM entry_text transcript = Raise e <->
  exists before x after,
    transcript = before ++ x :: after
    /\ forallb text_is_str before = true
    /\ entry_text x = Raise e.
Proof.
  induction transcript as [|y rest IH].
  - split; [done|]. intros (before & x & after & Heq & _). by destruct before.
  - rewrite mapM_entry_text_cons. split.
    + destruct (entry_text y) as [s|e'] eqn:Hy.
      * cbn. destruct (mapM entry_text rest) as [texts|e'] eqn:Hrest; [done|].
        cbn. intros [= ->].
        destruct (proj1 IH eq_refl) as (before & x & after & -> & Hbefore & Hx).
        exists (y :: before), x, after. repeat split; [|done].
        cbn. rewrite Hbefore, andb_true_r.
        destruct (text_is_str y) eqn:Hstr; [done|].
        destruct y as [d|]; [|done]. unfold text_is_str, entry_text in *.
        by destruct (d !! "text") as [[]|].
      * cbn. intros [= ->]. by exists [], y, rest.
    + intros (before & x & after & Heq & Hbefore & Hx).
      destruct before as [|z before]; cbn in Heq; injection Heq as -> ->.
      * by rewrite Hx.
      * cbn in Hbefore. apply andb_prop in Hbefore as [Hz Hbefore].
        destruct (entry_text_readable z Hz) as [s ->]. cbn.
        assert (mapM entry_text (before ++ x :: after) = Raise e) as ->; [|done].
        apply IH. by exists before, x, after.
Qed.

(** X5. The concatenator raises exactly when some mapping of the
    transcript holds something else than a [str] under 'text'; the
    exception is the [TypeError] of the first such mapping, and the
    entries after it are not read. *)
Theorem get_full_transcript_text_type_error (transcript : list entry) (e : exn) :
  get_full_transcript_text transcript = Raise e <->
  exists before d v after,
    transcript = before ++ EDict d :: after
    /\ forallb text_is_str before = true
    /\ d !! "text" = Some v
    /\ text_is_str (EDict d) = false
    /\ e = unsupported_add v.
Proof.
  rewrite get_full_transcript_text_raise, mapM_entry_text_raise. split.
  - intros (before & x & after & -> & Hbefore & Hx).
    destruct (entry_text_unreadable x e Hx) as (d & v & -> & Hv & Hstr & ->).
    by exists before, d, v, after.
  - intros (before & d & v & after & -> & Hbefore & Hv & Hstr & ->).
    exists before, (EDict d), after. repeat split; [done|].
    by apply entry_text_unreadable_inv.
Qed.

Lemma get_full_transcript_text_type_error_witness :
  get_full_transcript_text
    [EObj "intro" ∅; EDict {[ "text" := VInt 3 ]}; EDict {[ "text" := VNone ]}]
  = Raise (Exn "unsupported operand type(s) for +: 'int' and 'str'").
Proof.
  apply (proj2 (get_full_transcript_text_type_error
                  [EObj "intro" ∅; EDict {[ "text" := VInt 3 ]}; EDict {[ "text" := VNone ]}]
                  (Exn "unsupported operand type(s) for +: 'int' and 'str'"))).
  exists [EObj "intro" ∅], {[ "text" := VInt 3 ]}, (VInt 3), [EDict {[ "text" := VNone ]}].
  repeat split.
Defined.

(** *** Transcripts put one after the other *)

Lemma starts_with_space_app (t x : string) :
  t <> "" -> starts_with_space (t +:+ x) = starts_with_space t.
Proof. by destruct t. Qed.

Lemma ends_with_space_app (x y : string) :
  y <> "" -> ends_with_space (x +:+ y) = ends_with_space y.
Proof.
  intros Hy. induction x as [|c x IH]; [done|].
  rewrite app_cons. cbn [ends_with_space].
  destruct (x +:+ y) as [|d z] eqn:Hxy; [|exact IH].
  destruct x; [by rewrite app_empty_l in Hxy|by rewrite app_cons in Hxy].
Qed.

Lemma join_cons (t t' : string) (rest : list string) :
  join " " (t :: t' :: rest) = t +:+ " " +:+ join " " (t' :: rest).
Proof. reflexivity. Qed.

Lemma join_app (ta tb : list string) :
  ta <> [] -> tb <> [] ->
  join " " (ta ++ tb) = join " " ta +:+ " " +:+ join " " tb.
Proof.
  intros Ha Hb. induction ta as [|t [|t' rest] IH]; [done| |].
  - destruct tb as [|u tb]; [done|]. reflexivity.
  - change ((t :: t' :: rest) ++ tb) with (t :: t' :: (rest ++ tb)).
    rewrite !join_cons.
    change (t' :: rest ++ tb) with ((t' :: rest) ++ tb).
    rewrite IH by done. by rewrite !app_assoc.
Qed.

Lemma join_clean (texts : list string) :
  texts <> [] -> Forall clean texts -> clean (join " " texts).
Proof.
  induction texts as [|t [|t' rest] IH]; intros Hne Hclean; [done| |].
  - by inversion Hclean.
  - inversion Hclean as [|? ? (Ht & Hts & Hte) Hrest]; subst.
    destruct (IH ltac:(done) Hrest) as (Hj & Hjs & Hje).
    rewrite join_cons. repeat split.
    + destruct t; [done|by rewrite app_cons].
    + by rewrite starts_with_space_app.
    + rewrite !ends_with_space_app; [done..|].
      destruct (join " " (t' :: rest)); [done|by rewrite app_cons].
Qed.

Lemma mapM_entry_text_app (a b : list entry) (ta tb : list string) :
  mapM entry_text a = Ok ta -> mapM entry_text b = Ok tb ->
  mapM entry_text (a ++ b) = Ok (ta ++ tb).
Proof.
  revert ta. induction a as [|x a IH]; intros ta Ha Hb.
  - by injection Ha as <-.
  - change ((x :: a) ++ b) with (x :: (a ++ b)).
    rewrite mapM_entry_text_cons in Ha |- *.
    destruct (entry_text x) as [s|]; [|done]. cbn in Ha |- *.
    destruct (mapM entry_text a) as [texts|]; [|done]. cbn in Ha.
    injection Ha as <-. by rewrite (IH texts eq_refl Hb).
Qed.

Lemma mapM_entry_text_clean (a : list entry) :
  Forall entry_clean a ->
  exists ta, mapM entry_text a = Ok ta /\ Forall clean ta /\ length ta = length a.
Proof.
  induction 1 as [|x a (s & Hs & Hclean) _ (ta & Hta & Hcleans & Hlen)].
  - by exists [].
  - exists (s :: ta). rewrite mapM_entry_text_cons, Hs. cbn. rewrite Hta. cbn.
    repeat split; [by constructor|by rewrite Hlen].
Qed.

Lemma get_full_transcript_text_clean (a : list entry) (ta : list string) :
  mapM entry_text a = Ok ta -> ta <> [] -> Forall clean ta ->
  get_full_transcript_text a = Ok (join " " ta).
Proof.
  intros Hta Hne Hclean. rewrite (get_full_transcript_text_texts a ta Hta).
  destruct (join_clean ta Hne Hclean) as (_ & Hs & He).
  by rewrite strip_fixed.
Qed.

(** X6. For two transcripts that are not empty and whose entries all have
    a clean text (not empty, no white space at either end), the text of
    the two put one after the other is the text of the first, a space,
    and the text of the second. *)
Theorem get_full_transcript_text_split (a b : list entry) :
  a <> [] -> b <> [] -> Forall entry_clean a -> Forall entry_clean b ->
  exists sa sb,
    get_full_transcript_text a = Ok sa
    /\ get_full_transcript_text b = Ok sb
    /\ get_full_transcript_text (a ++ b) = Ok (sa +:+ " " +:+ sb).
Proof.
  intros Ha Hb Hca Hcb.
  destruct (mapM_entry_text_clean a Hca) as (ta & Hta & Hcta & Hla).
  destruct (mapM_entry_text_clean b Hcb) as (tb & Htb & Hctb & Hlb).
  assert (ta <> []) as Hnta by (intros ->; by destruct a).
  assert (tb <> []) as Hntb by (intros ->; by destruct b).
  exists (join " " ta), (join " " tb).
  split; [by apply get_full_transcript_text_clean|].
  split; [by apply get_full_transcript_text_clean|].
  rewrite <- join_app by done.
  apply get_full_transcript_text_clean.
  - by apply mapM_entry_text_app.
  - intros Heq. apply app_eq_nil in Heq as [? ?]. done.
  - by apply Forall_app.
Qed.

Lemma get_full_transcript_text_split_witness :
  exists sa sb,
    get_full_transcript_text [EObj "Hello" ∅] = Ok sa
    /\ get_full_transcript_text [EDict {[ "text" := VStr "big world" ]}] = Ok sb
    /\ get_full_transcript_text
         ([EObj "Hello" ∅] ++ [EDict {[ "text" := VStr "big world" ]}])
       = Ok (sa +:+ " " +:+ sb).
Proof.
  apply (get_full_transcript_text_split
           [EObj "Hello" ∅] [EDict {[ "text" := VStr "big world" ]}]);
    [discriminate|discriminate| |];
    (constructor; [|constructor]); eexists; (split; [reflexivity|]);
    repeat split; discriminate.
Defined.

(** Without clean texts the split can fail: white space inside the
    longer transcript stays, the pieces lose theirs. *)
Example get_full_transcript_text_split_needs_clean :
  get_full_transcript_text ([EObj "a " ∅] ++ [EObj "b" ∅]) = Ok "a  b"
  /\ get_full_transcript_text [EObj "a " ∅] = Ok "a"
  /\ get_full_transcript_text [EObj "b" ∅] = Ok "b".
Proof. repeat split. Qed.

(** ** Further properties of the analyser *)

Lemma app_inj_r (x y u v : string) :
  String.length x = String.length y -> x +:+ u = y +:+ v -> x = y.
Proof.
  revert y. induction x as [|c x IH]; intros [|d y] Hlen Heq; try done.
  rewrite !app_cons in Heq. injection Heq as -> Heq.
  f_equal. apply IH; [by injection Hlen|done].
Qed.

Lemma app_cancel_r (x y t : string) : x +:+ t = y +:+ t -> x = y.
Proof.
  intros Heq. apply (app_inj_r x y t t); [|done].
  apply (f_equal String.length) in Heq. rewrite !length_app in Heq. lia.
Qed.

(** X7. The user message has 595 characters of template around the
    embedded text, so it never has more than 4595 characters, however
    long the transcript is. *)
Theorem prompt_length (transcript_text : string) :
  String.length (prompt transcript_text)
    = (595 + Nat.min 4000 (String.length transcript_text))%nat
  /\ (String.length (prompt transcript_text) <= 4595)%nat.
Proof.
  assert (String.length (prompt transcript_text)
          = (595 + Nat.min 4000 (String.length transcript_text))%nat) as Hlen.
  { unfold prompt. rewrite !length_app, length_slice_to.
    change (String.length prompt_head) with 331%nat.
    change (String.length prompt_tail) with 264%nat. lia. }
  split; [exact Hlen|]. rewrite Hlen. lia.
Qed.

(** X8. Two transcript texts lead to the same request exactly when they
    agree on their first 4000 characters. *)
Theorem chat_request_same (t1 t2 : string) :
  chat_request t1 = chat_request t2 <-> slice_to 4000 t1 = slice_to 4000 t2.
Proof.
  split.
  - intros Heq.
    apply (f_equal (fun r => snd <$> last (messages r))) in Heq.
    change (Some (prompt t1) = Some (prompt t2)) in Heq.
    assert (prompt t1 = prompt t2) as Hprompt by congruence.
    unfold prompt in Hprompt.
    apply (inj (String.app prompt_head)) in Hprompt. by apply app_cancel_r in Hprompt.
  - intros Heq. unfold chat_request, prompt. by rewrite Heq.
Qed.

Lemma chat_request_same_witness :
  chat_request "Hello world" <> chat_request "Hello there".
Proof.
  intros Heq. apply (proj1 (chat_request_same "Hello world" "Hello there")) in Heq.
  discriminate Heq.
Defined.

(** ** Further properties of the entry point *)

Lemma report_some video_id (a : string) :
  report video_id (Some a)
    = Run [analysis_result video_id (toxicity_score a) (bias_tags a) (Some a)] (Ok tt).
Proof. reflexivity. Qed.

Lemma report_none video_id :
  report video_id None = Run [analysis_result video_id 5 ["Unknown"] None] (Ok tt).
Proof. reflexivity. Qed.

(** What a run prints once the fetch step has handed over [transcript]. *)
Lemma main_selected (w : world) result_list transcript :
  api_list w (video_id_of w) = Ok tt ->
  api_fetch w (video_id_of w) = Ok result_list ->
  selected_transcript result_list = Some transcript ->
  main w =
    match get_full_transcript_text transcript with
    | Ok full_text =>
        printed (report (video_id_of w)
                   (analyze_content (create w) full_text (video_id_of w)))
    | Raise e => [error_result ("Analysis failed: " +:+ str_exn e) (video_id_of w)]
    end.
Proof.
  intros Hlist Hfetch Hsel.
  destruct (get_full_transcript_text transcript) as [full_text|e] eqn:Htext.
  - by apply (main_reports w result_list transcript).
  - unfold main. cbv zeta.
    rewrite (fetch_and_analyse_selected _ _ _ _ Hlist Hfetch Hsel).
    by rewrite (analyse_raise _ _ _ _ Htext).
Qed.

(** The forms of what a run prints. *)
Lemma main_forms (w : world) :
  (no_tracks_found w /\ main w = [])
  \/ (exists message, main w = [error_result message (video_id_of w)])
  \/ (exists a, main w = [analysis_result (video_id_of w)
                            (toxicity_score a) (bias_tags a) (Some a)])
  \/ main w = [analysis_result (video_id_of w) 5 ["Unknown"] None].
Proof.
  assert (Hsel : forall result_list transcript,
    api_list w (video_id_of w) = Ok tt ->
    api_fetch w (video_id_of w) = Ok result_list ->
    selected_transcript result_list = Some transcript ->
    (exists message, main w = [error_result message (video_id_of w)])
    \/ (exists a, main w = [analysis_result (video_id_of w)
                              (toxicity_score a) (bias_tags a) (Some a)])
    \/ main w = [analysis_result (video_id_of w) 5 ["Unknown"] None]).
  { intros result_list transcript Hlist Hfetch Hsel.
    rewrite (main_selected _ _ _ Hlist Hfetch Hsel).
    destruct (get_full_transcript_text transcript) as [full_text|e]; [|left; by eexists].
    right. destruct (analyze_content _ _ _) as [a|].
    - left. exists a. by rewrite report_some.
    - right. by rewrite report_none. }
  destruct (api_list w (video_id_of w)) as [[]|e] eqn:Hlist.
  2: { right; left. eexists. unfold main, fetch_and_analyse. cbv zeta.
       by rewrite Hlist. }
  destruct (api_fetch w (video_id_of w)) as [result_list|e] eqn:Hfetch.
  2: { right; left. eexists. unfold main, fetch_and_analyse. cbv zeta.
       by rewrite Hlist, eval_ok_bind, Hfetch. }
  destruct (selected_transcript result_list) as [transcript|] eqn:Hselected.
  { right. by apply (Hsel result_list transcript). }
  destruct result_list as [|first_result rest].
  { right; left. eexists. unfold main, fetch_and_analyse. cbv zeta.
    by rewrite Hlist, eval_ok_bind, Hfetch, eval_ok_bind. }
  cbn [selected_transcript] in Hselected.
  destruct (tracks (result_dict_of first_result)) as [[|t ts]|] eqn:Htracks; [|done|].
  - left. assert (no_tracks_found w) as Hnone.
    { split; [done|]. by exists first_result, rest. }
    split; [done|].
    unfold main, fetch_and_analyse. cbv zeta.
    by rewrite Hlist, eval_ok_bind, Hfetch, eval_ok_bind, Htracks.
  - right; left. unfold main, fetch_and_analyse. cbv zeta.
    rewrite Hlist, eval_ok_bind, Hfetch, eval_ok_bind, Htracks.
    destruct (attr_tracks first_result) as [[|t ts]|]; [by eexists| |done].
    cbn [index0]. rewrite eval_ok_bind. unfold getitem_transcript.
    rewrite Hselected. by eexists.
Qed.

Lemma bias_tags_printable (s : string) :
  bias_tags s ⊆ printable_tags /\ NoDup (bias_tags s).
Proof.
  unfold bias_tags, printable_tags, vocabulary.
  destruct (contains "bias" (lower s)); [|split; [apply list_subseteq_nil|constructor]].
  destruct (contains "political" (lower s)), (contains "cultural" (lower s)),
    (contains "gender" (lower s)), (contains "racial" (lower s));
    cbn [app]; split; by apply (bool_decide_unpack _).
Qed.

Lemma no_tracks_prints_nothing (w : world) : no_tracks_found w -> main w = [].
Proof.
  intros (Hlist & first_result & rest & Hfetch & Htracks).
  unfold main, fetch_and_analyse. cbv zeta.
  by rewrite Hlist, eval_ok_bind, Hfetch, eval_ok_bind, Htracks.
Qed.

(** X9. A run prints at most one document, and it prints none exactly
    when it finds an empty list under 'tracks'. *)
Theorem main_document_count (w : world) :
  (length (main w) <= 1)%nat /\ (main w = [] <-> no_tracks_found w).
Proof.
  pose proof (no_tracks_prints_nothing w) as Hnothing.
  destruct (main_forms w) as [[Hnone H] | [[message H] | [[a H] | H]]];
    rewrite H in Hnothing |- *; (split; [simpl; lia|]); split; try done;
    intros Hn; by specialize (Hnothing Hn).
Qed.

Lemma main_document_count_witness :
  main (run_with [wrapper []] (failing "unreachable")) = [].
Proof.
  apply (proj2 (proj2 (main_document_count (run_with [wrapper []] (failing "unreachable"))))).
  split; [reflexivity|]. exists (wrapper []), []. split; reflexivity.
Defined.

(** X10. Every document a run prints carries the video identifier of the
    run under "videoId". *)
Theorem main_video_id (w : world) (doc : json) :
  doc ∈ main w -> member "videoId" doc = Some (JStr (video_id_of w)).
Proof.
  destruct (main_forms w) as [[Hnone H] | [[message H] | [[a H] | H]]];
    rewrite H; intros Hdoc.
  - by apply elem_of_nil in Hdoc.
  - by apply list_elem_of_singleton in Hdoc as ->.
  - by apply list_elem_of_singleton in Hdoc as ->.
  - by apply list_elem_of_singleton in Hdoc as ->.
Qed.

Lemma main_video_id_witness :
  member "videoId" (error_result "No transcript data returned" "abc123")
    = Some (JStr "abc123").
Proof.
  apply (main_video_id (run_with [] (failing "unreachable"))).
  apply list_elem_of_singleton. reflexivity.
Defined.

(** X11. A full record printed by a run is built by the dict literal of
    the script for the video identifier of the run, with a score that is
    not negative and tags without repetition among Political, Cultural,
    Gender, Racial and Unknown. *)
Theorem main_record_fields (w : world) (doc : json) :
  doc ∈ main w -> full_shaped doc ->
  exists score tags analysis,
    doc = analysis_result (video_id_of w) score tags analysis
    /\ 0 <= score
    /\ tags ⊆ printable_tags
    /\ NoDup tags.
Proof.
  destruct (main_forms w) as [[Hnone H] | [[message H] | [[a H] | H]]];
    rewrite H; intros Hdoc Hshape.
  - by apply elem_of_nil in Hdoc.
  - apply list_elem_of_singleton in Hdoc as ->. discriminate Hshape.
  - apply list_elem_of_singleton in Hdoc as ->.
    destruct (bias_tags_printable a) as [Hsub Hnodup].
    eexists _, _, _. split; [reflexivity|].
    split; [apply toxicity_score_nonneg|done].
  - apply list_elem_of_singleton in Hdoc as ->.
    eexists _, _, _. split; [reflexivity|].
    split; [lia|]. split; by apply (bool_decide_unpack _).
Qed.

Lemma main_record_fields_witness :
  exists score tags analysis,
    analysis_result "abc123" 5 ["Unknown"] None
      = analysis_result "abc123" score tags analysis
    /\ 0 <= score /\ tags ⊆ printable_tags /\ NoDup tags.
Proof.
  apply (main_record_fields (run_with [snippet "Hello"] (answering None))).
  - apply list_elem_of_singleton. reflexivity.
  - reflexivity.
Defined.

(** *** Runs that reach the completion service *)

Lemma analyze_content_first (create : completion_service) (transcript_text video_id : string)
    (content : option string) (others : list (option string)) :
  create (chat_request transcript_text) = Ok (content :: others) ->
  analyze_content create transcript_text video_id = content.
Proof. unfold analyze_content. by intros ->. Qed.

Lemma analyze_content_no_choice (create : completion_service)
    (transcript_text video_id : string) :
  create (chat_request transcript_text) = Ok [] ->
  analyze_content create transcript_text video_id
    = Some "Error analyzing content: list index out of range".
Proof. unfold analyze_content. by intros ->. Qed.

Section Answers_of_the_service.

Variable w : world.
Variable result_list : list item.
Variable transcript : list entry.
Variable full_text : string.

Hypothesis listed : api_list w (video_id_of w) = Ok tt.
Hypothesis fetched : api_fetch w (video_id_of w) = Ok result_list.
Hypothesis selected : selected_transcript result_list = Some transcript.
Hypothesis concatenated : get_full_transcript_text transcript = Ok full_text.

Lemma main_analysed :
  main w = printed (report (video_id_of w)
                      (analyze_content (create w) full_text (video_id_of w))).
Proof using listed fetched selected concatenated.
  by rewrite (main_selected w result_list transcript), concatenated.
Qed.

(** X12. When the service answers the request built from the transcript
    text with choices of which the first has the content [a], the run
    prints one document: the full record with the score and the tags read
    from [a] and with [a] itself, unchanged, as its analysis; the other
    choices are not read. *)
Theorem main_success (a : string) (others : list (option string)) :
  create w (chat_request full_text) = Ok (Some a :: others) ->
  main w = [analysis_result (video_id_of w) (toxicity_score a) (bias_tags a) (Some a)].
Proof using listed fetched selected concatenated.
  intros Hcreate.
  by rewrite main_analysed, (analyze_content_first _ _ _ _ _ Hcreate), report_some.
Qed.

(** X13. When the service answers without any choice, the look-up of the
    first choice raises inside the analyser: the run prints the full
    record with the analysis "Error analyzing content: list index out of
    range", score 5 and no tag. *)
Theorem main_no_choice :
  create w (chat_request full_text) = Ok [] ->
  main w = [analysis_result (video_id_of w) 5 []
              (Some "Error analyzing content: list index out of range")].
Proof using listed fetched selected concatenated.
  intros Hcreate.
  by rewrite main_analysed, (analyze_content_no_choice _ _ _ Hcreate), report_some.
Qed.

End Answers_of_the_service.

Lemma main_success_witness :
  main (run_with [snippet "Hello"; snippet "world"]
          (fun _ => Ok [Some "Toxicity score: 3. Racial bias."; Some "Toxicity score: 9."]))
  = [analysis_result "abc123" 3 ["Racial"] (Some "Toxicity score: 3. Racial bias.")].
Proof.
  apply (main_success
           (run_with [snippet "Hello"; snippet "world"]
              (fun _ => Ok [Some "Toxicity score: 3. Racial bias."; Some "Toxicity score: 9."]))
           [snippet "Hello"; snippet "world"]
           (entry_of_item <$> [snippet "Hello"; snippet "world"])
           "Hello world" eq_refl eq_refl eq_refl eq_refl
           "Toxicity score: 3. Racial bias." [Some "Toxicity score: 9."] eq_refl).
Defined.

Lemma main_no_choice_witness :
  main (run_with [snippet "Hello"] (fun _ => Ok []))
  = [analysis_result "abc123" 5 []
       (Some "Error analyzing content: list index out of range")].
Proof.
  apply (main_no_choice (run_with [snippet "Hello"] (fun _ => Ok []))
           [snippet "Hello"] (entry_of_item <$> [snippet "Hello"]) "Hello"
           eq_refl eq_refl eq_refl eq_refl eq_refl).
Defined.

(** *** Runs that stop before the analysis *)

(** X14. When listing or fetching the transcripts raises with message
    [m], the run prints the error record with "Analysis failed: "
    followed by [m]; after a failed listing the fetch plays no part. *)
Theorem main_fetch_failure (w : world) (e : exn) :
  api_list w (video_id_of w) = Raise e
  \/ (api_list w (video_id_of w) = Ok tt /\ api_fetch w (video_id_of w) = Raise e) ->
  main w = [error_result ("Analysis failed: " +:+ str_exn e) (video_id_of w)].
Proof.
  unfold main, fetch_and_analyse. cbv zeta.
  intros [Hlist|[Hlist Hfetch]].
  - by rewrite Hlist.
  - by rewrite Hlist, eval_ok_bind, Hfetch.
Qed.

Lemma main_fetch_failure_witness :
  main {| env_VIDEO_ID := None;
          api_list := fun _ => Raise (Exn "Could not retrieve a transcript");
          api_fetch := fun _ => Ok [snippet "Hello"];
          create := answering (Some "Toxicity score: 1") |}
  = [error_result "Analysis failed: Could not retrieve a transcript" "5NojPQTNx9s"].
Proof.
  apply (main_fetch_failure
           {| env_VIDEO_ID := None;
              api_list := fun _ => Raise (Exn "Could not retrieve a transcript");
              api_fetch := fun _ => Ok [snippet "Hello"];
              create := answering (Some "Toxicity score: 1") |}
           (Exn "Could not retrieve a transcript")).
  left. reflexivity.
Defined.

(** X15. When the concatenator raises on the transcript handed over, the
    run prints the error record with the message of that exception and
    nothing else: the completion service plays no part. *)
Theorem main_unreadable_transcript (w : world) result_list transcript (e : exn) :
  api_list w (video_id_of w) = Ok tt ->
  api_fetch w (video_id_of w) = Ok result_list ->
  selected_transcript result_list = Some transcript ->
  get_full_transcript_text transcript = Raise e ->
  main w = [error_result ("Analysis failed: " +:+ str_exn e) (video_id_of w)].
Proof.
  intros Hlist Hfetch Hsel Htext.
  by rewrite (main_selected w result_list transcript), Htext.
Qed.

Lemma main_unreadable_transcript_witness :
  main (run_with [IDict {| fields := {[ "text" := VFloat "1.5" ]}; tracks := None |}]
          (answering (Some "Toxicity score: 1")))
  = [error_result
       "Analysis failed: unsupported operand type(s) for +: 'float' and 'str'" "abc123"].
Proof.
  apply (main_unreadable_transcript
           (run_with [IDict {| fields := {[ "text" := VFloat "1.5" ]}; tracks := None |}]
              (answering (Some "Toxicity score: 1")))
           [IDict {| fields := {[ "text" := VFloat "1.5" ]}; tracks := None |}]
           [EDict {[ "text" := VFloat "1.5" ]}]
           (Exn "unsupported operand type(s) for +: 'float' and 'str'"));
    reflexivity.
Defined.

(** *** The two ways of finding tracks *)

(** X16. With 'tracks' in [result_dict], a first track without the key
    'transcript' stands for an empty transcript: the run goes on and
    prints what the analysis of the empty text yields. *)
Theorem main_track_without_transcript (w : world) first_result rest (t : track) ts :
  api_list w (video_id_of w) = Ok tt ->
  api_fetch w (video_id_of w) = Ok (first_result :: rest) ->
  tracks (result_dict_of first_result) = Some (t :: ts) ->
  t !! "transcript" = None ->
  main w = printed (report (video_id_of w)
                      (analyze_content (create w) "" (video_id_of w))).
Proof.
  intros Hlist Hfetch Htracks Ht.
  rewrite (main_selected w (first_result :: rest) []); [done..|].
  cbn [selected_transcript]. by rewrite Htracks, Ht.
Qed.

Lemma main_track_without_transcript_witness :
  main (run_with [wrapper [∅]] (answering (Some "Nothing to assess.")))
  = [analysis_result "abc123" 5 [] (Some "Nothing to assess.")].
Proof.
  apply (main_track_without_transcript
           (run_with [wrapper [∅]] (answering (Some "Nothing to assess.")))
           (wrapper [∅]) [] ∅ []); reflexivity.
Defined.

(** X17. With the tracks found as an attribute only, the look-ups are
    not guarded: an empty list of tracks gives the error record of the
    [IndexError], and a first track without the key 'transcript' the
    error record of the [KeyError]. *)
Theorem main_attribute_tracks (w : world) first_result rest :
  api_list w (video_id_of w) = Ok tt ->
  api_fetch w (video_id_of w) = Ok (first_result :: rest) ->
  tracks (result_dict_of first_result) = None ->
  (attr_tracks first_result = Some [] ->
   main w = [error_result "Analysis failed: list index out of range" (video_id_of w)])
  /\ (forall (t : track) ts,
        attr_tracks first_result = Some (t :: ts) -> t !! "transcript" = None ->
        main w = [error_result "Analysis failed: 'transcript'" (video_id_of w)]).
Proof.
  intros Hlist Hfetch Htracks.
  unfold main, fetch_and_analyse. cbv zeta.
  rewrite Hlist, eval_ok_bind, Hfetch, eval_ok_bind, Htracks.
  split.
  - by intros ->.
  - intros t ts -> Ht. cbn [index0]. rewrite eval_ok_bind.
    unfold getitem_transcript. by rewrite Ht.
Qed.

Lemma main_attribute_tracks_witness :
  main (run_with [class_wrapper []] (answering (Some "Toxicity score: 1")))
    = [error_result "Analysis failed: list index out of range" "abc123"]
  /\ main (run_with [class_wrapper [∅]] (answering (Some "Toxicity score: 1")))
    = [error_result "Analysis failed: 'transcript'" "abc123"].
Proof.
  split.
  - apply (proj1 (main_attribute_tracks
                    (run_with [class_wrapper []] (answering (Some "Toxicity score: 1")))
                    (class_wrapper []) [] eq_refl eq_refl eq_refl)).
    reflexivity.
  - apply (proj2 (main_attribute_tracks
                    (run_with [class_wrapper [∅]] (answering (Some "Toxicity score: 1")))
                    (class_wrapper [∅]) [] eq_refl eq_refl eq_refl) ∅ []);
      reflexivity.
Defined.

Lemma main_of_first_track (w : world) first_result rest (t : track) ts :
  api_list w (video_id_of w) = Ok tt ->
  api_fetch w (video_id_of w) = Ok (first_result :: rest) ->
  tracks (result_dict_of first_result) = Some (t :: ts) ->
  main w =
    match get_full_transcript_text (default [] (t !! "transcript")) with
    | Ok full_text =>
        printed (report (video_id_of w)
                   (analyze_content (create w) full_text (video_id_of w)))
    | Raise e => [error_result ("Analysis failed: " +:+ str_exn e) (video_id_of w)]
    end.
Proof.
  intros Hlist Hfetch Htracks.
  apply (main_selected w (first_result :: rest)); [done..|].
  cbn [selected_transcript]. by rewrite Htracks.
Qed.

(** X18. With 'tracks' in [result_dict], the run reads the first track
    and nothing else of the fetched result: two runs that agree on the
    environment, on the completion service and on that track print the
    same, whatever the other tracks, the other keys of the first element
    and the other elements are. *)
Theorem main_first_track_only (w w' : world) first_result rest first_result' rest'
    (t : track) ts ts' :
  env_VIDEO_ID w = env_VIDEO_ID w' ->
  create w = create w' ->
  api_list w (video_id_of w) = Ok tt ->
  api_list w' (video_id_of w') = Ok tt ->
  api_fetch w (video_id_of w) = Ok (first_result :: rest) ->
  api_fetch w' (video_id_of w') = Ok (first_result' :: rest') ->
  tracks (result_dict_of first_result) = Some (t :: ts) ->
  tracks (result_dict_of first_result') = Some (t :: ts') ->
  main w = main w'.
Proof.
  intros Henv Hcreate Hlist Hlist' Hfetch Hfetch' Htracks Htracks'.
  rewrite (main_of_first_track w _ _ _ _ Hlist Hfetch Htracks).
  rewrite (main_of_first_track w' _ _ _ _ Hlist' Hfetch' Htracks').
  unfold video_id_of. by rewrite Henv, Hcreate.
Qed.

Lemma main_first_track_only_witness :
  main (run_with [wrapper [{[ "transcript" := [EObj "Hello" ∅] ]}]]
          (answering (Some "Toxicity score: 1")))
  = main (run_with
            [IDict {| fields := {[ "text" := VStr "ignored" ]};
                      tracks := Some [{[ "transcript" := [EObj "Hello" ∅] ]};
                                      {[ "transcript" := [EObj "second" ∅] ]}] |};
             snippet "also ignored"]
            (answering (Some "Toxicity score: 1"))).
Proof.
  apply (main_first_track_only
           (run_with [wrapper [{[ "transcript" := [EObj "Hello" ∅] ]}]]
              (answering (Some "Toxicity score: 1")))
           (run_with
              [IDict {| fields := {[ "text" := VStr "ignored" ]};
                        tracks := Some [{[ "transcript" := [EObj "Hello" ∅] ]};
                                        {[ "transcript" := [EObj "second" ∅] ]}] |};
               snippet "also ignored"]
              (answering (Some "Toxicity score: 1")))
           (wrapper [{[ "transcript" := [EObj "Hello" ∅] ]}]) []
           (IDict {| fields := {[ "text" := VStr "ignored" ]};
                     tracks := Some [{[ "transcript" := [EObj "Hello" ∅] ]};
                                     {[ "transcript" := [EObj "second" ∅] ]}] |})
           [snippet "also ignored"]
           {[ "transcript" := [EObj "Hello" ∅] ]} []
           [{[ "transcript" := [EObj "second" ∅] ]}]); reflexivity.
Defined.

(** ** The preview of the transcript *)

Lemma preview_line_text (x : entry) (s : string) :
  entry_text x = Ok s ->
  exists start, preview_line x = "[" +:+ start +:+ "s] " +:+ s.
Proof.
  destruct x as [d|shown attrs]; unfold entry_text, preview_line; cbv zeta.
  - destruct (default (VStr "") (d !! "text")) as [| | |t]; try done.
    intros [= <-]. by eexists.
  - intros [= <-]. destruct (attrs !! "text") as [v|]; by eexists.
Qed.

Lemma preview_take_texts (n : nat) (transcript : list entry) (texts : list string) :
  mapM entry_text transcript = Ok texts ->
  Forall2 (fun line s => exists start, line = "[" +:+ start +:+ "s] " +:+ s)
    (preview_line <$> take n transcript) (take n texts).
Proof.
  revert n texts. induction transcript as [|x rest IH]; intros n texts Htexts.
  - injection Htexts as <-. destruct n; constructor.
  - rewrite mapM_entry_text_cons in Htexts.
    destruct (entry_text x) as [s|] eqn:Hx; [|done]. cbn in Htexts.
    destruct (mapM entry_text rest) as [texts'|] eqn:Hrest; [|done]. cbn in Htexts.
    injection Htexts as <-. destruct n as [|n]; [constructor|].
    cbn. constructor; [by apply preview_line_text|by apply IH].
Qed.

(** X20. The preview has a line for each of the first ten entries and no
    more; on a transcript the concatenator can read, each line ends with
    the very text the concatenator takes from that entry. *)
Theorem preview_shows_texts (transcript : list entry) :
  length (preview transcript) = Nat.min 10 (length transcript)
  /\ forall texts,
       mapM entry_text transcript = Ok texts ->
       Forall2 (fun line s => exists start, line = "[" +:+ start +:+ "s] " +:+ s)
         (preview transcript) (take 10 texts).
Proof.
  split.
  - unfold preview. by rewrite length_fmap, length_take.
  - intros texts Htexts. by apply preview_take_texts.
Qed.

Lemma preview_shows_texts_witness :
  Forall2 (fun line s => exists start, line = "[" +:+ start +:+ "s] " +:+ s)
    (preview [EDict {[ "text" := VStr "Hello"; "start" := VFloat "0.5" ]}; EObj "world" ∅])
    (take 10 ["Hello"; "world"]).
Proof.
  apply (proj2 (preview_shows_texts
                  [EDict {[ "text" := VStr "Hello"; "start" := VFloat "0.5" ]};
                   EObj "world" ∅])).
  reflexivity.
Defined.

Example preview_lines :
  preview [EDict {[ "text" := VStr "Hello"; "start" := VFloat "0.5" ]}; EObj "world" ∅;
           EDict {[ "text" := VInt 7 ]}]
  = ["[0.5s] Hello"; "[0s] world"; "[0s] 7"].
Proof. reflexivity. Qed.

(** ** A flat result, end to end *)

(** X21. When the first fetched element has no tracks, by key or by
    attribute, the fetched list is the transcript: with the texts of its
    elements readable, the service is asked about their stripped join,
    and the content [a] of its first choice gives the record printed. *)
Theorem main_flat_result (w : world) first_result rest (texts : list string)
    (a : string) (others : list (option string)) :
  api_list w (video_id_of w) = Ok tt ->
  api_fetch w (video_id_of w) = Ok (first_result :: rest) ->
  tracks (result_dict_of first_result) = None ->
  attr_tracks first_result = None ->
  mapM entry_text (entry_of_item <$> first_result :: rest) = Ok texts ->
  create w (chat_request (strip (join " " texts))) = Ok (Some a :: others) ->
  main w = [analysis_result (video_id_of w) (toxicity_score a) (bias_tags a) (Some a)].
Proof.
  intros Hlist Hfetch Htracks Hattr Htexts Hcreate.
  rewrite (main_selected w (first_result :: rest)
             (entry_of_item <$> first_result :: rest) Hlist Hfetch).
  - rewrite (get_full_transcript_text_texts _ _ Htexts).
    by rewrite (analyze_content_first _ _ _ _ _ Hcreate), report_some.
  - cbn [selected_transcript]. by rewrite Htracks, Hattr.
Qed.

Lemma main_flat_result_witness :
  main (run_with [snippet " Hello"; snippet "world "]
          (answering_to "Hello world" (Some "Toxicity score: 2. No bias.")))
  = [analysis_result "abc123" 2 [] (Some "Toxicity score: 2. No bias.")].
Proof.
  apply (main_flat_result
           (run_with [snippet " Hello"; snippet "world "]
              (answering_to "Hello world" (Some "Toxicity score: 2. No bias.")))
           (snippet " Hello") [snippet "world "] [" Hello"; "world "]
           "Toxicity score: 2. No bias." []); reflexivity.
Defined.
